(** * RFM customer segmentation pipeline: cleaning, aggregation, scoring,
      message composition and dispatch

    A shallow embedding of [app/pipeline.py], [app/main.py] and of the
    command-line script [testing/segmentation_email_pipeline.py].

    Conventions of the embedding.
    - A Python scalar held in a table cell or passed to a function is a
      [Cell]: [None], the float [nan], a [str] or a number.  Numbers are
      exact rationals; no statement below depends on rounding.
    - Timestamps are integers (nanoseconds since the epoch), a missing
      timestamp ([NaT]) is [None] of [option Z].
    - A raising computation returns [Raise e]; statements are sequenced
      with the bind of [Result].
    - pandas operations are given the meaning their documentation states,
      in the sub-module [Pd]. *)

From Stdlib Require Import ZArith QArith Qround String Ascii List Bool Lia Lqa DecimalString.
From stdpp Require Import base option list gmap strings sorting.

Local Open Scope string_scope.
Local Open Scope Z_scope.

(** ** Python values, exceptions *)

Inductive Cell : Type :=
| CNone                 (* None *)
| CNaN                  (* float('nan'), pandas' missing value *)
| CStr (s : string)
| CNum (q : Q).

#[global] Instance Cell_inhabited : Inhabited Cell := populate CNaN.

Inductive Exception : Type :=
| ValueError (msg : string)
| TypeError (msg : string)
| AttributeError (msg : string).

Inductive Result (A : Type) : Type :=
| Ok (a : A)
| Raise (e : Exception).
Arguments Ok {A} a.
Arguments Raise {A} e.

#[global] Instance Result_ret : MRet Result := fun A a => Ok a.
#[global] Instance Result_bind : MBind Result := fun A B k m =>
  match m with
  | Ok a => k a
  | Raise e => Raise e
  end.

#[global] Instance Result_fmap : FMap Result := fun A B f m =>
  match m with
  | Ok a => Ok (f a)
  | Raise e => Raise e
  end.

Definition raises {A} (m : Result A) : Prop := exists e, m = Raise e.

(** ** Python built-ins used by the pipeline *)

Module Py.

(** [str.isspace] on the ASCII range (tab, LF, VT, FF, CR, FS, GS, RS, US
    and the blank). *)
Definition isspace (c : ascii) : bool :=
  let n := nat_of_ascii c in
  ((9 <=? n)%nat && (n <=? 13)%nat) || ((28 <=? n)%nat && (n <=? 32)%nat).

Fixpoint lstrip (s : string) : string :=
  match s with
  | EmptyString => EmptyString
  | String c s' => if isspace c then lstrip s' else s
  end.

Definition rstrip (s : string) : string := String.rev (lstrip (String.rev s)).

(** [s.strip()] *)
Definition strip (s : string) : string := rstrip (lstrip s).

(** ["@" in s] for a one-character needle. *)
Fixpoint contains (c : ascii) (s : string) : bool :=
  match s with
  | EmptyString => false
  | String c' s' => Ascii.eqb c c' || contains c s'
  end.

(** [s.startswith(p)] *)
Definition startswith (p s : string) : bool := String.prefix p s.

(** Truth value of an object: [None], the empty string and zero are
    false; [nan] is a non-zero float, hence true. *)
Definition truthy (c : Cell) : bool :=
  match c with
  | CNone => false
  | CNaN => true
  | CStr s => negb (String.eqb s "")
  | CNum q => negb (Qeq_bool q 0)
  end.

(** [x or y] *)
Definition or_ (x y : Cell) : Cell := if truthy x then x else y.

(** [x.strip()] on an arbitrary object: only [str] has the method. *)
Definition strip_method (c : Cell) : Result string :=
  match c with
  | CStr s => Ok (strip s)
  | CNone => Raise (AttributeError "'NoneType' object has no attribute 'strip'")
  | CNaN | CNum _ => Raise (AttributeError "'float' object has no attribute 'strip'")
  end.

(** Decimal rendering of an integer, as [str(n)] and an f-string do. *)
Definition str_int (z : Z) : string := NilZero.string_of_int (Z.to_int z).

Definition digit (c : ascii) : option Z :=
  let n := nat_of_ascii c in
  if ((48 <=? n)%nat && (n <=? 57)%nat) then Some (Z.of_nat n - 48) else None.

(** Digits of an integer literal; a single underscore may separate two
    digits.  [acc] is the value read so far, [sep] tells whether the
    previous character was an underscore. *)
Fixpoint digits (acc : Z) (sep : bool) (s : string) : option Z :=
  match s with
  | EmptyString => if sep then None else Some acc
  | String c s' =>
      match digit c with
      | Some d => digits (10 * acc + d) false s'
      | None =>
          if Ascii.eqb c "_" && negb sep
          then match s' with EmptyString => None | _ => digits acc true s' end
          else None
      end
  end.

Definition unsigned_literal (s : string) : option Z :=
  match s with
  | EmptyString => None
  | String c _ => match digit c with Some _ => digits 0 false s | None => None end
  end.

(** [int(s)] for a [str] in base 10, ASCII digits: surrounding blanks,
    an optional sign, digits. *)
Definition int_literal (s : string) : option Z :=
  match strip s with
  | String "-" s' => Z.opp <$> unsigned_literal s'
  | String "+" s' => unsigned_literal s'
  | s' => unsigned_literal s'
  end.

(** [int(x)]: a number is truncated towards zero, a string is parsed,
    [None] is a type error, [nan] cannot be converted. *)
Definition int (c : Cell) : Result Z :=
  match c with
  | CNum q => Ok (Z.quot (Qnum q) (Z.pos (Qden q)))
  | CStr s =>
      match int_literal s with
      | Some z => Ok z
      | None => Raise (ValueError ("invalid literal for int() with base 10: '" +:+ s +:+ "'"))
      end
  | CNone => Raise (TypeError "int() argument must be a string, a bytes-like object or a real number, not 'NoneType'")
  | CNaN => Raise (ValueError "cannot convert float NaN to integer")
  end.

End Py.

(** ** pandas operations *)

Module Pd.

(** [pd.isna] / [pd.notna] on a scalar. *)
Definition isna (c : Cell) : bool :=
  match c with CNone | CNaN => true | _ => false end.
Definition notna (c : Cell) : bool := negb (isna c).

(** Strict comparison of rationals as a boolean. *)
Definition Qltb (x y : Q) : bool := negb (Qle_bool y x).

(** [series > 0]: a missing value compares false. *)
Definition gt0 (x : option Q) : bool :=
  match x with Some q => Qltb 0 q | None => false end.

(** [a * b] on nullable numbers. *)
Definition mul (a b : option Q) : option Q :=
  match a, b with Some x, Some y => Some (x * y)%Q | _, _ => None end.

(** [.astype("Int64")] of one nullable float: a missing value stays
    missing, an integral value is cast, anything else is refused
    ("cannot safely cast non-equivalent float64 to int64"). *)
Definition astype_Int64 (x : option Q) : Result (option Z) :=
  match x with
  | None => Ok None
  | Some q =>
      if Qeq_bool (inject_Z (Qfloor q)) q then Ok (Some (Qfloor q))
      else Raise (TypeError "cannot safely cast non-equivalent float64 to int64")
  end.

(** [sort_values]: a stable sort, here by insertion.  [leb x y] says that
    [x] may stand before [y]; an element is put before the first one it
    may stand before, so rows with equal keys keep their order. *)
Section sort_values.
Context {A : Type} (leb : A -> A -> bool).

Fixpoint insert_sorted (x : A) (l : list A) : list A :=
  match l with
  | [] => [x]
  | y :: l' => if leb x y then x :: l else y :: insert_sorted x l'
  end.

Definition sort_values (l : list A) : list A := foldr insert_sorted [] l.
End sort_values.

(** [Series.unique()]: the distinct values in order of first appearance. *)
Fixpoint unique_from {A} `{EqDecision A} (seen : list A) (l : list A) : list A :=
  match l with
  | [] => []
  | x :: l' =>
      if bool_decide (x ∈ seen) then unique_from seen l'
      else x :: unique_from (x :: seen) l'
  end.
Definition unique {A} `{EqDecision A} (l : list A) : list A := unique_from [] l.

(** [Series.nunique()] *)
Definition nunique {A} `{EqDecision A} (l : list A) : nat := length (unique l).

(** [Series.sum()], missing values skipped; the sum of nothing is 0. *)
Definition sum (l : list (option Q)) : Q :=
  foldr (fun x acc => match x with Some q => (q + acc)%Q | None => acc end) 0%Q l.

(** [Series.max()] of timestamps, missing values skipped; [NaT] when
    there is none. *)
Definition max (l : list (option Z)) : option Z :=
  foldr (fun x acc =>
           match x, acc with
           | Some a, Some b => Some (Z.max a b)
           | Some a, None => Some a
           | None, _ => acc
           end) None l.

(** [timedelta(days=1)] in nanoseconds. *)
Definition one_day : Z := 86400 * 1000000000.

(** [ts + timedelta(days=1)] *)
Definition add_day (ts : option Z) : option Z := (fun t => t + one_day) <$> ts.

(** [(a - b).days]: whole days of a time difference, rounded down. *)
Definition days_between (a b : option Z) : option Z :=
  match a, b with
  | Some x, Some y => Some ((x - y) / one_day)
  | _, _ => None
  end.

(** [series.get(k)] on a series indexed by customer id, as [groupby]
    yields it: the value at label [k], if the index has it. *)
Definition lookup_index {A} (k : Z) (s : list (Z * A)) : option A :=
  (list_to_map s : gmap Z A) !! k.

(** The index of [pd.concat(..., axis=1)]: the union of the indexes, in
    order of first appearance. *)
Definition concat_index (ixs : list (list Z)) : list Z := unique (concat ixs).

(** [df.groupby(key, sort=True, dropna=True)] followed by an aggregation:
    one entry per distinct present key, keys ascending, the aggregate
    taken over the rows of that key in their order of appearance. *)
Definition groupby {R K A} `{EqDecision K} (key_leb : K -> K -> bool)
    (key : R -> option K) (agg : list R -> A) (df : list R) : list (K * A) :=
  map (fun k => (k, agg (List.filter (fun r => bool_decide (key r = Some k)) df)))
      (sort_values key_leb (unique (omap key df))).

(** [df.groupby(key).tail(1)]: the last row of every group, rows staying
    in the order they have in [df]; rows without a key are left out. *)
Fixpoint tail1 {R K} `{EqDecision K} (key : R -> option K) (df : list R) : list R :=
  match df with
  | [] => []
  | r :: rest =>
      match key r with
      | Some k =>
          if existsb (fun r' => bool_decide (key r' = Some k)) rest
          then tail1 key rest else r :: tail1 key rest
      | None => tail1 key rest
      end
  end.

(** [sort_values(..., inplace=True)] sorts the frame it is called on and
    returns [None]. *)
Definition sort_values_inplace {A : Type} (leb : A -> A -> bool) (l : list A)
  : option (list A) := None.

End Pd.

(** ** Tables *)

(** A raw table, as [pd.read_csv] returns it: the column labels and the
    rows, each row mapping a label to its cell. *)
Record DataFrame : Type := {
  columns : list string;
  rows : list (gmap string Cell)
}.

(** A transaction after the dtype conversions of [clean_transactions].
    The three string columns went through [astype(str)], the numeric ones
    through [pd.to_numeric(errors="coerce")] (a failed coercion is
    missing), [InvoiceDate] through [pd.to_datetime(errors="coerce")];
    [Name], [Email] and [Country] are left as they came.  [TotalPrice] is
    the column added last; it is missing until then. *)
Record Transaction : Type := {
  InvoiceNo : string;
  StockCode : string;
  Description : string;
  Quantity : option Q;
  InvoiceDate : option Z;
  UnitPrice : option Q;
  CustomerID : option Z;
  Name : Cell;
  Email : Cell;
  Country : Cell;
  TotalPrice : option Q
}.

Definition REQUIRED_COLUMNS : list string :=
  ["InvoiceNo"; "StockCode"; "Description"; "Quantity"; "InvoiceDate"; "UnitPrice";
   "CustomerID"; "Name"; "Email"; "Country"].

(** [repr] of a list of plain strings, as the f-string of the schema
    error prints it. *)
Definition repr_list (l : list string) : string :=
  "[" +:+ String.concat ", " (map (fun s => "'" +:+ s +:+ "'") l) +:+ "]".

Definition missing_columns_error (missing : list string) : Exception :=
  ValueError ("Missing required columns: " +:+ repr_list missing).

(** ** Transaction cleaner ([clean_transactions], same text in
       [app/pipeline.py] and in the script) *)

Section Cleaner.

(** The three pandas coercions, on one cell: [astype(str)],
    [pd.to_numeric(errors="coerce")], [pd.to_datetime(errors="coerce")].
    How pandas prints a number or parses a numeral or a date is left
    open. *)
Variable astype_str : Cell -> string.
Variable to_numeric : Cell -> option Q.
Variable to_datetime : Cell -> option Z.

(** Lines 35-41, on one row.  Only the [Int64] cast can fail. *)
Definition convert_row (r : gmap string Cell) : Result Transaction :=
  cid ← Pd.astype_Int64 (to_numeric (r !!! "CustomerID"));
  mret {| InvoiceNo := astype_str (r !!! "InvoiceNo");
          StockCode := astype_str (r !!! "StockCode");
          Description := astype_str (r !!! "Description");
          Quantity := to_numeric (r !!! "Quantity");
          InvoiceDate := to_datetime (r !!! "InvoiceDate");
          UnitPrice := to_numeric (r !!! "UnitPrice");
          CustomerID := cid;
          Name := r !!! "Name";
          Email := r !!! "Email";
          Country := r !!! "Country";
          TotalPrice := None |}.

(** [~df["InvoiceNo"].str.startswith("C", na=False)] *)
Definition not_cancelled (t : Transaction) : bool :=
  negb (Py.startswith "C" (InvoiceNo t)).

(** [(df["Quantity"] > 0) & (df["UnitPrice"] > 0)] *)
Definition positive_values (t : Transaction) : bool :=
  Pd.gt0 (Quantity t) && Pd.gt0 (UnitPrice t).

(** [dropna(subset=["CustomerID","InvoiceDate","Email"])] keeps a row
    when none of the three is missing. *)
Definition no_nulls (t : Transaction) : bool :=
  bool_decide (is_Some (CustomerID t)) && bool_decide (is_Some (InvoiceDate t))
  && Pd.notna (Email t).

(** [df["TotalPrice"] = df["Quantity"] * df["UnitPrice"]] *)
Definition with_total (t : Transaction) : Transaction :=
  {| InvoiceNo := InvoiceNo t; StockCode := StockCode t; Description := Description t;
     Quantity := Quantity t; InvoiceDate := InvoiceDate t; UnitPrice := UnitPrice t;
     CustomerID := CustomerID t; Name := Name t; Email := Email t; Country := Country t;
     TotalPrice := Pd.mul (Quantity t) (UnitPrice t) |}.

Definition clean_transactions (df : DataFrame) : Result (list Transaction) :=
  let missing := List.filter (fun c => negb (bool_decide (c ∈ columns df))) REQUIRED_COLUMNS in
  if negb (bool_decide (missing = [])) then Raise (missing_columns_error missing)
  else
    df ← mapM convert_row (rows df);
    let df := List.filter not_cancelled df in
    let df := List.filter positive_values df in
    let df := List.filter no_nulls df in
    mret (map with_total df).

End Cleaner.

(** ** Customer feature aggregator: the parts of [derive_customer_features] *)

(** A row of [prod_agg]: one (customer, description) pair with its summed
    quantity and summed line total. *)
Module Prod.
Record t : Type := {
  CustomerID : Z;
  Description : string;
  Qty : Q;
  Rev : Q
}.
End Prod.

(** A customer feature row.  A column is nullable because the outer
    [concat] and the left [join] fill what an index lacks with [NaN]. *)
Module Feature.
Record t : Type := {
  CustomerID : Z;
  Name : Cell;
  Email : Cell;
  Last_Purchase : option Z;
  Fav_Category : option string;
  Total_Spent : option Q;
  Last_Purchase_Days_Ago : option Z;
  Recency : option Z;
  Frequency : option nat;
  Monetary : option Q
}.
End Feature.

(** [df.groupby("CustomerID")[col].agg()] *)
Definition by_customer {A} (agg : list Transaction -> A) (df : list Transaction)
  : list (Z * A) :=
  Pd.groupby Z.leb CustomerID agg df.

(** Order of the keys of [groupby(["CustomerID","Description"])]. *)
Definition pair_leb (a b : Z * string) : bool :=
  (a.1 <? b.1) || ((a.1 =? b.1) && String.leb a.2 b.2).

(** [df.groupby(["CustomerID","Description"]).agg(Qty=("Quantity","sum"),
    Rev=("TotalPrice","sum")).reset_index()] *)
Definition product_totals (df : list Transaction) : list Prod.t :=
  map (fun '((c, d), (q, r)) =>
         {| Prod.CustomerID := c; Prod.Description := d; Prod.Qty := q; Prod.Rev := r |})
      (Pd.groupby pair_leb
         (fun t => (fun c => (c, Description t)) <$> CustomerID t)
         (fun g => (Pd.sum (map Quantity g), Pd.sum (map TotalPrice g)))
         df).

(** The order of [sort_values(["CustomerID","Qty","Rev"],
    ascending=[True,False,False])]. *)
Definition by_customer_qty_rev (a b : Prod.t) : bool :=
  (Prod.CustomerID a <? Prod.CustomerID b)
  || ((Prod.CustomerID a =? Prod.CustomerID b)
      && (Pd.Qltb (Prod.Qty b) (Prod.Qty a)
          || (Qeq_bool (Prod.Qty a) (Prod.Qty b) && Qle_bool (Prod.Rev b) (Prod.Rev a)))).

(** [prod_agg.groupby("CustomerID").first()["Description"]] *)
Definition first_description (prod_agg : list Prod.t) : list (Z * option string) :=
  Pd.groupby Z.leb (fun p => Some (Prod.CustomerID p))
    (fun g => Prod.Description <$> head g) prod_agg.

(** The order of [sort_values("InvoiceDate")]: ascending, [NaT] last.
    pandas does not fix the order of two rows with the same date in a
    sort by one key; here they keep their order, and no statement below
    depends on which of them comes first. *)
Definition by_date (a b : Transaction) : bool :=
  match InvoiceDate a, InvoiceDate b with
  | Some x, Some y => x <=? y
  | Some _, None => true
  | None, Some _ => false
  | None, None => true
  end.

(** [latest_rows.set_index("CustomerID")[["Name","Email"]]] *)
Definition name_email (latest_rows : list Transaction) : list (Z * (Cell * Cell)) :=
  omap (fun t => (fun k => (k, (Name t, Email t))) <$> CustomerID t) latest_rows.

(** The order of [sort_values("Monetary", ascending=False)]: descending,
    missing values last.  Rows with the same value: as for [by_date]. *)
Definition by_monetary_desc (a b : Feature.t) : bool :=
  match Feature.Monetary a, Feature.Monetary b with
  | Some x, Some y => Qle_bool y x
  | Some _, None => true
  | None, Some _ => false
  | None, None => true
  end.

(** Lines 71-80: the seven series are put side by side on the union of
    their indexes, [id_name] is joined from the left, the index becomes
    the [CustomerID] column, and the rows are sorted by [Monetary],
    largest first. *)
Definition merge_features
    (last_purchase : list (Z * option Z)) (days_ago recency : list (Z * option Z))
    (frequency : list (Z * nat)) (monetary total_spent : list (Z * Q))
    (fav : list (Z * option string)) (id_name : list (Z * (Cell * Cell)))
  : list Feature.t :=
  let index :=
    Pd.concat_index [last_purchase.*1; days_ago.*1; recency.*1; frequency.*1;
                     monetary.*1; total_spent.*1; fav.*1] in
  let features :=
    map (fun k =>
           {| Feature.CustomerID := k;
              Feature.Name := from_option fst CNaN (Pd.lookup_index k id_name);
              Feature.Email := from_option snd CNaN (Pd.lookup_index k id_name);
              Feature.Last_Purchase := mjoin (Pd.lookup_index k last_purchase);
              Feature.Fav_Category := mjoin (Pd.lookup_index k fav);
              Feature.Total_Spent := Pd.lookup_index k total_spent;
              Feature.Last_Purchase_Days_Ago := mjoin (Pd.lookup_index k days_ago);
              Feature.Recency := mjoin (Pd.lookup_index k recency);
              Feature.Frequency := Pd.lookup_index k frequency;
              Feature.Monetary := Pd.lookup_index k monetary |})
        index in
  Pd.sort_values by_monetary_desc features.

(** [(snapshot_date - last_purchase).dt.days] *)
Definition days_since (snapshot_date : option Z) (last_purchase : list (Z * option Z))
  : list (Z * option Z) :=
  map (fun '(k, lp) => (k, Pd.days_between snapshot_date lp)) last_purchase.

(** ** Segment scorer ([score_segments], same text in both files) *)

Definition CLUSTER_MAP : gmap Z string :=
  {[ 0 := "At-Risk Customers"; 1 := "Regular Customers"; 2 := "VIP Customers" ]}.

(** [Series.map(CLUSTER_MAP).fillna("Unknown")] on one cluster id. *)
Definition segment_of (cluster : Z) : string :=
  default "Unknown" (CLUSTER_MAP !! cluster).

(** A scored row: the feature row with the two added columns. *)
Module Scored.
Record t : Type := {
  features : Feature.t;
  Cluster : Z;
  Segment : string
}.
End Scored.

(** [features[["Recency","Frequency","Monetary"]]], one row. *)
Definition rfm_of (f : Feature.t) : option Z * option nat * option Q :=
  (Feature.Recency f, Feature.Frequency f, Feature.Monetary f).

Section Scorer.

(** The fitted artifacts.  [scaler.transform] takes the table of triples
    and returns the scaled table; [kmeans.predict] takes that and returns
    the cluster ids.  Either may raise. *)
Variable Scaled : Type.
Variable scaler_transform : list (option Z * option nat * option Q) -> Result (list Scaled).
Variable kmeans_predict : list Scaled -> Result (list Z).

(** [out["Cluster"] = clusters] refuses an array whose length is not the
    number of rows. *)
Definition score_segments (features : list Feature.t) : Result (list Scored.t) :=
  let rfm := map rfm_of features in
  rfm_scaled ← scaler_transform rfm;
  clusters ← kmeans_predict rfm_scaled;
  if bool_decide (length clusters = length features) then
    mret (zip_with (fun f c => {| Scored.features := f; Scored.Cluster := c;
                                  Scored.Segment := segment_of c |})
                   features clusters)
  else Raise (ValueError "Length of values does not match length of index").

End Scorer.

(** ** Message templates shared by the two [generate_email] *)

Definition nl : string := String "010" "".

(** The subject of the last template, byte for byte as the files hold it. *)
Definition we_miss_you : string := "We miss you â€” ".

Definition vip_mail (name fav : string) : string * string :=
  ("Exclusive early access just for you",
   "Hey " +:+ name +:+ "," +:+ nl +:+ nl
   +:+ "As one of our VIPs, enjoy early access to new arrivals in " +:+ fav +:+ "." +:+ nl
   +:+ "Thanks for being with us!").

Definition regular_mail (name fav : string) : string * string :=
  ("A little thank-you: 15% off " +:+ fav,
   "Hi " +:+ name +:+ "," +:+ nl +:+ nl
   +:+ "You've been loving our " +:+ fav +:+ ". Here's 15% off your next order!" +:+ nl
   +:+ "See what's new and recommended for you.").

Definition at_risk_subject (fav : string) : string :=
  we_miss_you +:+ fav +:+ " waiting for you".

Definition at_risk_body (name : string) (days : Z) (fav : string) : string :=
  "Hey " +:+ name +:+ "," +:+ nl +:+ nl
  +:+ "It's been " +:+ Py.str_int days +:+ " days since your last purchase. "
  +:+ "Come back for 25% off " +:+ fav +:+ "!".

(** [s or d] on strings. *)
Definition str_or (s d : string) : string := if String.eqb s "" then d else s.

(** ** Dispatch loop ([segment_customers] lines 72-95, [main] lines 186-202) *)

(** What the loop reads of a row. *)
Module MailRow.
Record t : Type := {
  Name : Cell;
  Email : Cell;
  Segment : string;
  Last_Purchase_Days_Ago : Cell;
  Fav_Category : Cell
}.
End MailRow.

Record Mail : Type := {
  to_email : string;
  subject : string;
  body : string
}.

(** How the loop was left: the rows ran out, [break] was reached, or an
    exception left the loop (and the function). *)
Inductive Exit : Type :=
| Exhausted
| Break
| Raised (e : Exception).

(** The state when the loop is left: the mail sink, the counter [sent],
    and the calls of [send_email_gmail] made so far, oldest first, each
    with whether it returned ([true]) or raised ([false]). *)
Record Dispatch (W : Type) : Type := {
  sink : W;
  sent : nat;
  attempts : list (Mail * bool);
  exit : Exit
}.
Arguments sink {W} _.
Arguments sent {W} _.
Arguments attempts {W} _.
Arguments exit {W} _.

Section Dispatch.

(** The mail sink: one synchronous delivery, which returns or raises. *)
Context {W : Type}.
Variable send_email_gmail : Mail -> W -> W * bool.

(** The two places where the loops differ: the guard that yields the
    address or skips the row ([None]), and the composer. *)
Variable recipient : Cell -> Result (option string).
Variable generate_email : Cell -> string -> Cell -> Cell -> Result (string * string).

(** [--limit] / [limit]: an optional integer. *)
Variable limit : option Z.

(** [limit and sent >= limit] *)
Definition limit_reached (sent : nat) : bool :=
  match limit with
  | Some n => negb (n =? 0) && (n <=? Z.of_nat sent)
  | None => false
  end.

Fixpoint send_loop (rows : list MailRow.t) (w : W) (sent : nat) (log : list (Mail * bool))
  : Dispatch W :=
  match rows with
  | [] => {| sink := w; sent := sent; attempts := log; exit := Exhausted |}
  | r :: rest =>
      match recipient (MailRow.Email r) with
      | Raise e => {| sink := w; sent := sent; attempts := log; exit := Raised e |}
      | Ok None => send_loop rest w sent log                       (* continue *)
      | Ok (Some email) =>
          match generate_email (MailRow.Name r) (MailRow.Segment r)
                               (MailRow.Last_Purchase_Days_Ago r) (MailRow.Fav_Category r) with
          | Raise e => {| sink := w; sent := sent; attempts := log; exit := Raised e |}
          | Ok (subject, body) =>
              let m := {| to_email := email; subject := subject; body := body |} in
              let '(w, delivered) := send_email_gmail m w in
              if delivered then
                let sent := S sent in
                if limit_reached sent
                then {| sink := w; sent := sent; attempts := log ++ [(m, true)]; exit := Break |}
                else send_loop rest w sent (log ++ [(m, true)])
              else send_loop rest w sent (log ++ [(m, false)])  (* except: print *)
          end
      end
  end.

(** [sent = 0] before the loop. *)
Definition dispatch (rows : list MailRow.t) (w : W) : Dispatch W := send_loop rows w 0%nat [].

(** The mail the loop would hand to the sink for a row, if any. *)
Definition mail_of (r : MailRow.t) : option Mail :=
  match recipient (MailRow.Email r) with
  | Ok (Some email) =>
      match generate_email (MailRow.Name r) (MailRow.Segment r)
                           (MailRow.Last_Purchase_Days_Ago r) (MailRow.Fav_Category r) with
      | Ok (subject, body) => Some {| to_email := email; subject := subject; body := body |}
      | Raise _ => None
      end
  | _ => None
  end.

End Dispatch.

Arguments limit_reached : simpl never.
Arguments mail_of : simpl never.

(** ** The script ([testing/segmentation_email_pipeline.py]) *)
Module Cli.

Definition derive_customer_features (df : list Transaction)
  : Result (list Feature.t * option Z) :=
  let snapshot_date := Pd.add_day (Pd.max (map InvoiceDate df)) in
  let last_purchase := by_customer (fun g => Pd.max (map InvoiceDate g)) df in
  let recency := days_since snapshot_date last_purchase in
  let frequency := by_customer (fun g => Pd.nunique (map InvoiceNo g)) df in
  let monetary := by_customer (fun g => Pd.sum (map TotalPrice g)) df in
  let total_spent := monetary in
  let days_ago := recency in
  let prod_agg := product_totals df in
  let prod_agg := Pd.sort_values by_customer_qty_rev prod_agg in
  let fav := first_description prod_agg in
  let latest_rows := Pd.tail1 CustomerID (Pd.sort_values by_date df) in
  let id_name := name_email latest_rows in
  let features :=
    merge_features last_purchase days_ago recency frequency monetary total_spent fav id_name in
  mret (features, snapshot_date).

(** Lines 170-175 of [main]: an empty cleaned table is refused before
    aggregating. *)
Definition no_valid_transactions : Exception :=
  ValueError "No valid transactions to process after cleaning.".

Definition main_aggregate (tx : list Transaction) : Result (list Feature.t * option Z) :=
  if bool_decide (tx = []) then Raise no_valid_transactions
  else derive_customer_features tx.

Section composer.

(** [str(x)] of a number; how Python prints a float is left open. *)
Variable str_num : Q -> string.

Definition py_str (c : Cell) : string :=
  match c with
  | CStr s => s
  | CNone => "None"
  | CNaN => "nan"
  | CNum q => str_num q
  end.

Definition generate_email (name : Cell) (segment : string)
    (last_purchase_days fav_category : Cell) : Result (string * string) :=
  let name :=
    if Pd.isna name || String.eqb (Py.strip (py_str name)) "" then "there"
    else py_str name in
  let fav_text :=
    match fav_category with
    | CStr s => if String.eqb (Py.strip s) "" then "your favorites" else s
    | _ => "your favorites"
    end in
  if String.eqb segment "VIP Customers" then mret (vip_mail name fav_text)
  else if String.eqb segment "Regular Customers" then mret (regular_mail name fav_text)
  else
    let subject := at_risk_subject fav_text in
    days ← Py.int last_purchase_days;
    mret (subject, at_risk_body name days fav_text).

(** [email = str(row["Email"]).strip(); if not email or "@" not in email:
    continue] (the script). *)
Definition recipient (email : Cell) : Result (option string) :=
  let email := Py.strip (py_str email) in
  mret (if negb (String.eqb email "") && Py.contains "@" email then Some email else None).

Definition send_emails {W} (send_email_gmail : Mail -> W -> W * bool) (limit : option Z)
  : list MailRow.t -> W -> Dispatch W :=
  dispatch send_email_gmail recipient generate_email limit.

End composer.

End Cli.

(** ** The service ([app/pipeline.py], [app/main.py]) *)
Module App.

(** Here [prod_agg] is bound to what [sort_values(..., inplace=True)]
    returns, and the next line calls [groupby] on it. *)
Definition derive_customer_features (df : list Transaction)
  : Result (list Feature.t * option Z) :=
  let snapshot_date := Pd.add_day (Pd.max (map InvoiceDate df)) in
  let last_purchase := by_customer (fun g => Pd.max (map InvoiceDate g)) df in
  let recency := days_since snapshot_date last_purchase in
  let frequency := by_customer (fun g => Pd.nunique (map InvoiceNo g)) df in
  let monetary := by_customer (fun g => Pd.sum (map TotalPrice g)) df in
  let total_spent := monetary in
  let days_ago := recency in
  let prod_agg := Pd.sort_values_inplace by_customer_qty_rev (product_totals df) in
  fav ← match prod_agg with
        | Some prod_agg => mret (first_description prod_agg)
        | None => Raise (AttributeError "'NoneType' object has no attribute 'groupby'")
        end;
  let latest_rows := Pd.tail1 CustomerID (Pd.sort_values by_date df) in
  let id_name := name_email latest_rows in
  let features :=
    merge_features last_purchase days_ago recency frequency monetary total_spent fav id_name in
  mret (features, snapshot_date).

(** Lines 47-48 of [segment_customers] in [app/main.py]: the aggregator is
    called on whatever the cleaner returned. *)
Definition segment_customers_aggregate (tx : list Transaction)
  : Result (list Feature.t * option Z) :=
  derive_customer_features tx.

Definition generate_email (name : Cell) (segment : string)
    (last_purchase_days fav_category : Cell) : Result (string * string) :=
  name ← Py.strip_method (Py.or_ name (CStr "there"));
  let name := str_or name "there" in
  fav ← Py.strip_method (Py.or_ fav_category (CStr "Your favourites"));
  let fav := str_or fav "your favorites" in
  if String.eqb segment "VIP Customers" then mret (vip_mail name fav)
  else if String.eqb segment "Regular Customers" then mret (regular_mail name fav)
  else
    let subject := at_risk_subject fav in
    days ← (if Pd.notna last_purchase_days
            then (fun d => CNum (inject_Z d)) <$> Py.int last_purchase_days
            else mret (CStr "many"));
    days ← Py.int days;
    mret (subject, at_risk_body name days fav).

(** [email = r["Email"]; if not email or "@" not in email: continue]
    ([app/main.py]).  The membership test needs an iterable. *)
Definition recipient (email : Cell) : Result (option string) :=
  if negb (Py.truthy email) then mret None
  else match email with
       | CStr s => mret (if Py.contains "@" s then Some s else None)
       | CNone => Raise (TypeError "argument of type 'NoneType' is not iterable")
       | CNaN | CNum _ => Raise (TypeError "argument of type 'float' is not iterable")
       end.

Definition send_emails {W} (send_email_gmail : Mail -> W -> W * bool) (limit : option Z)
  : list MailRow.t -> W -> Dispatch W :=
  dispatch send_email_gmail recipient generate_email limit.

End App.

(** ** Predicates used in the statements *)

(** The required columns a table lacks, in the order of the list. *)
Definition absent_columns (cols : list string) : list string :=
  List.filter (fun c => negb (bool_decide (c ∈ cols))) REQUIRED_COLUMNS.

(** What the cleaner guarantees of a row it returns. *)
Definition cleaned (t : Transaction) : Prop :=
  (exists q, Quantity t = Some q /\ (0 < q)%Q)
  /\ (exists p, UnitPrice t = Some p /\ (0 < p)%Q)
  /\ Py.startswith "C" (InvoiceNo t) = false
  /\ is_Some (CustomerID t)
  /\ is_Some (InvoiceDate t)
  /\ Pd.isna (Email t) = false.

(** The row invariant with the email also required to be non-empty. *)
Definition cleaned_with_email (t : Transaction) : Prop :=
  cleaned t /\ Email t <> CStr "".

(** What the dispatch loop guarantees under a cap [n]: the mails handed to
    the sink are those of the first [k] rows, in row order, a row without
    a usable address giving none; [sent] counts the deliveries that
    returned, and never exceeds [n]; the loop is left by [break] exactly
    when the row just visited brought [sent] to [n], and by exhaustion
    only below [n]; an exception leaves it at the row that raised. *)
Definition stops_at_cap {W} (recipient : Cell -> Result (option string))
    (generate_email : Cell -> string -> Cell -> Cell -> Result (string * string))
    (n : Z) (rows : list MailRow.t) (st : Dispatch W) : Prop :=
  exists k : nat,
    (k <= length rows)%nat
    /\ (attempts st).*1 = omap (mail_of recipient generate_email) (take k rows)
    /\ sent st = length (List.filter snd (attempts st))
    /\ Z.of_nat (sent st) <= n
    /\ match exit st with
       | Break =>
           Z.of_nat (sent st) = n
           /\ exists r m, rows !! pred k = Some r /\ (1 <= k)%nat
                          /\ mail_of recipient generate_email r = Some m
                          /\ last (attempts st) = Some (m, true)
       | Exhausted => k = length rows /\ Z.of_nat (sent st) < n
       | Raised e =>
           exists r, rows !! k = Some r
                     /\ (recipient (MailRow.Email r) = Raise e
                         \/ generate_email (MailRow.Name r) (MailRow.Segment r)
                              (MailRow.Last_Purchase_Days_Ago r) (MailRow.Fav_Category r) = Raise e)
       end.

(** The rows of customer [c] in a cleaned table. *)
Definition rows_of (c : Z) (df : list Transaction) : list Transaction :=
  List.filter (fun t => bool_decide (CustomerID t = Some c)) df.

(** [m] is the latest invoice date among [rows]. *)
Definition latest_date (m : Z) (rows : list Transaction) : Prop :=
  (exists t, t ∈ rows /\ InvoiceDate t = Some m)
  /\ forall t d, t ∈ rows -> InvoiceDate t = Some d -> d <= m.

(** The rows of customer [c] with description [d], and what [prod_agg]
    sums over them. *)
Definition product_rows (c : Z) (d : string) (df : list Transaction) : list Transaction :=
  List.filter (fun t => bool_decide (CustomerID t = Some c /\ Description t = d)) df.

Definition summed_quantity (c : Z) (d : string) (df : list Transaction) : Q :=
  Pd.sum (map Quantity (product_rows c d df)).

Definition summed_revenue (c : Z) (d : string) (df : list Transaction) : Q :=
  Pd.sum (map TotalPrice (product_rows c d df)).

(** The first row satisfying [p] after a stable sort by [leb], read off
    the unsorted list from its end: the best row so far is replaced only
    by a row that may stand before it. *)
Definition first_best {A} (leb : A -> A -> bool) (p : A -> bool) (l : list A) : option A :=
  foldr (fun a acc =>
           if p a then
             match acc with
             | None => Some a
             | Some h => if leb a h then Some a else Some h
             end
           else acc) None l.

(** A value that is missing, or a string that is blank. *)
Definition missing_or_blank (c : Cell) : Prop :=
  Pd.isna c = true \/ exists s, c = CStr s /\ Py.strip s = "".

(** A raw row whose customer id coerces to a number that is not
    integral: the [Int64] cast refuses it. *)
Definition non_integral_id (to_numeric : Cell -> option Q) (r : gmap string Cell) : Prop :=
  exists q, to_numeric (r !!! "CustomerID") = Some q
            /\ Qeq_bool (inject_Z (Qfloor q)) q = false.

(** The message of the refused cast. *)
Definition unsafe_cast : Exception :=
  TypeError "cannot safely cast non-equivalent float64 to int64".

(** A cleaned row that carries its line total. *)
Definition priced (t : Transaction) : Prop :=
  cleaned t /\ TotalPrice t = Pd.mul (Quantity t) (UnitPrice t).

(** What the dispatch loop does when no cap is in force: it is never left
    by [break]; the mails handed to the sink are those of the first [k]
    rows, in row order; [sent] counts the deliveries that returned; when
    the rows run out every row was visited, and an exception leaves the
    loop at the row that raised. *)
Definition runs_uncapped {W} (recipient : Cell -> Result (option string))
    (generate_email : Cell -> string -> Cell -> Cell -> Result (string * string))
    (rows : list MailRow.t) (st : Dispatch W) : Prop :=
  exists k : nat,
    (k <= length rows)%nat
    /\ (attempts st).*1 = omap (mail_of recipient generate_email) (take k rows)
    /\ sent st = length (List.filter snd (attempts st))
    /\ match exit st with
       | Break => False
       | Exhausted => k = length rows
       | Raised e =>
           exists r, rows !! k = Some r
                     /\ (recipient (MailRow.Email r) = Raise e
                         \/ generate_email (MailRow.Name r) (MailRow.Segment r)
                              (MailRow.Last_Purchase_Days_Ago r) (MailRow.Fav_Category r) = Raise e)
       end.

(** Of a truthy object that is not a [str]: what [(x or d).strip()]
    cannot be called on. *)
Definition truthy_non_string (c : Cell) : Prop :=
  Py.truthy c = true /\ forall s, c <> CStr s.

(** ** Errors raised outside the functions above *)

(** What leaves an entry point: an exception of the cleaner, the
    aggregator, the scorer or the composer, or one raised around them.
    [LibraryError] stands for whatever [pd.read_csv], [joblib.load] and
    [to_csv] raise. *)
Inductive Failure : Type :=
| Uncaught (e : Exception)
| KeyError (msg : string)
| RuntimeError (msg : string)
| FileNotFoundError (msg : string)
| LibraryError (msg : string).

Inductive Outcome (A : Type) : Type :=
| Done (a : A)
| Failed (f : Failure).
Arguments Done {A} a.
Arguments Failed {A} f.

#[global] Instance Outcome_ret : MRet Outcome := fun A a => Done a.
#[global] Instance Outcome_bind : MBind Outcome := fun A B k m =>
  match m with
  | Done a => k a
  | Failed f => Failed f
  end.

(** An exception of a called function passes through the caller. *)
Definition propagate {A} (m : Result A) : Outcome A :=
  match m with
  | Ok a => Done a
  | Raise e => Failed (Uncaught e)
  end.

(** [load_models] of the script and of the copy at the root: both files
    must exist before either is unpickled. *)
Section load_models.

Context {W Model : Type}.
Variable path_exists : string -> W -> bool.
Variable joblib_load : string -> W -> Outcome Model.

Definition load_models (scaler_path kmeans_path : string) (w : W) : Outcome (Model * Model) :=
  if negb (path_exists scaler_path w) || negb (path_exists kmeans_path w)
  then Failed (FileNotFoundError
                 "rfm_scaler.pkl and/or rfm_kmeans.pkl not found in working directory.")
  else
    scaler ← joblib_load scaler_path w;
    kmeans ← joblib_load kmeans_path w;
    mret (scaler, kmeans).

End load_models.

(** The table of the aggregator before the final sort (lines 85-89 of the
    copy at the root): the seven series side by side on the union of
    their indexes, with [id_name] joined from the left and the index
    turned into the [CustomerID] column. *)
Definition joined_features
    (last_purchase : list (Z * option Z)) (days_ago recency : list (Z * option Z))
    (frequency : list (Z * nat)) (monetary total_spent : list (Z * Q))
    (fav : list (Z * option string)) (id_name : list (Z * (Cell * Cell)))
  : list Feature.t :=
  map (fun k =>
         {| Feature.CustomerID := k;
            Feature.Name := from_option fst CNaN (Pd.lookup_index k id_name);
            Feature.Email := from_option snd CNaN (Pd.lookup_index k id_name);
            Feature.Last_Purchase := mjoin (Pd.lookup_index k last_purchase);
            Feature.Fav_Category := mjoin (Pd.lookup_index k fav);
            Feature.Total_Spent := Pd.lookup_index k total_spent;
            Feature.Last_Purchase_Days_Ago := mjoin (Pd.lookup_index k days_ago);
            Feature.Recency := mjoin (Pd.lookup_index k recency);
            Feature.Frequency := Pd.lookup_index k frequency;
            Feature.Monetary := Pd.lookup_index k monetary |})
      (Pd.concat_index [last_purchase.*1; days_ago.*1; recency.*1; frequency.*1;
                        monetary.*1; total_spent.*1; fav.*1]).

(** ** The copy at the root ([segmentation_email_pipeline.py]) *)
Module Copy.

(** The labels of the joined table: the index, the names the seven series
    were given by [rename], in the order of [pd.concat], and the two
    columns of [id_name]. *)
Definition joined_columns : list string :=
  ["CustomerID"; "Last_Purchase"; "Last_Purchase_Days_Ago"; "Recency"; "Frequency";
   "Monetary"; "Total_Spent"; "Fav_Category"; "Name"; "Email"].

(** Lines 92-93. *)
Definition cols : list string :=
  ["CustomerID"; "Name"; "Email"; "Last_Purchase"; "Fav_category"; "Total_Spent";
   "Last_Purchase_Days_Ago"; "Recency"; "Frequency"; "Monetary"].

(** [table[cols]] with a list of labels: a label the table lacks is a
    [KeyError] naming the labels not found. *)
Definition getitem_columns {A} (labels cols : list string) (table : A) : Outcome A :=
  let missing := List.filter (fun c => negb (bool_decide (c ∈ labels))) cols in
  if bool_decide (missing = []) then Done table
  else Failed (KeyError (repr_list missing +:+ " not in index")).

(** Here the sorted [prod_agg] is the table itself, sorted in place. *)
Definition derive_customer_features (df : list Transaction)
  : Outcome (list Feature.t * option Z) :=
  let snapshot_date := Pd.add_day (Pd.max (map InvoiceDate df)) in
  let last_purchase := by_customer (fun g => Pd.max (map InvoiceDate g)) df in
  let recency := days_since snapshot_date last_purchase in
  let frequency := by_customer (fun g => Pd.nunique (map InvoiceNo g)) df in
  let monetary := by_customer (fun g => Pd.sum (map TotalPrice g)) df in
  let total_spent := monetary in
  let days_ago := recency in
  let prod_agg := product_totals df in
  let prod_agg := Pd.sort_values by_customer_qty_rev prod_agg in
  let fav := first_description prod_agg in
  let latest_rows := Pd.tail1 CustomerID (Pd.sort_values by_date df) in
  let id_name := name_email latest_rows in
  let features :=
    joined_features last_purchase days_ago recency frequency monetary total_spent fav id_name in
  features ← getitem_columns joined_columns cols features;
  let features := Pd.sort_values by_monetary_desc features in
  mret (features, snapshot_date).

End Copy.

(** ** The upload handler of the service up to the aggregator
       ([segment_customers], lines 41-48 of [app/main.py]) *)

Section segment_customers.

Variable astype_str : Cell -> string.
Variable to_numeric : Cell -> option Q.
Variable to_datetime : Cell -> option Z.

(** [pd.read_csv(BytesIO(raw_bytes), encoding=...)]; [None] is the
    default encoding. *)
Context {Bytes : Type}.
Variable read_csv : Bytes -> option string -> Outcome DataFrame.

(** [try: df = pd.read_csv(...) except Exception: df = pd.read_csv(...,
    encoding="latin-1")] *)
Definition read_upload (raw_bytes : Bytes) : Outcome DataFrame :=
  match read_csv raw_bytes None with
  | Done df => Done df
  | Failed _ => read_csv raw_bytes (Some "latin-1")
  end.

Definition segment_customers_features (raw_bytes : Bytes)
  : Outcome (list Feature.t * option Z) :=
  df ← read_upload raw_bytes;
  tx ← propagate (clean_transactions astype_str to_numeric to_datetime df);
  propagate (App.derive_customer_features tx).

End segment_customers.

(** ** The entry point of the script ([main], lines 150-202) *)

Module Main.

(** The parsed command line. *)
Record Args : Type := {
  input : string;
  output : string;
  dry_run : bool;
  limit : option Z
}.

(** What a run leaves behind: the world when [main] is left, the table
    handed to [to_csv] (if it got there), the mail loop (if it was
    entered), and the exception that left [main], if any. *)
Record Run (W : Type) : Type := {
  world : W;
  saved : option (list Scored.t);
  mailing : option (Dispatch W);
  raised : option Failure
}.
Arguments world {W} _.
Arguments saved {W} _.
Arguments mailing {W} _.
Arguments raised {W} _.

(** A row of the scored table as [iterrows] yields it: a missing value of
    a column is [NaN]. *)
Definition row_of_scored (s : Scored.t) : MailRow.t :=
  let f := Scored.features s in
  {| MailRow.Name := Feature.Name f;
     MailRow.Email := Feature.Email f;
     MailRow.Segment := Scored.Segment s;
     MailRow.Last_Purchase_Days_Ago :=
       from_option (fun n => CNum (inject_Z n)) CNaN (Feature.Last_Purchase_Days_Ago f);
     MailRow.Fav_Category := from_option CStr CNaN (Feature.Fav_Category f) |}.

Definition credentials_not_set : Failure :=
  RuntimeError "EMAIL_USER/EMAIL_PASS not set. Create a .env or set env vars.".

Section main.

Context {W Model Scaled : Type}.

(** The pandas coercions and [str] of a number, as before. *)
Variable astype_str : Cell -> string.
Variable to_numeric : Cell -> option Q.
Variable to_datetime : Cell -> option Z.
Variable str_num : Q -> string.

(** The environment, as [load_dotenv()] leaves it. *)
Variable getenv : string -> option string.

(** The file system and the two artifacts. *)
Variable path_exists : string -> W -> bool.
Variable joblib_load : string -> W -> Outcome Model.
Variable transform : Model -> list (option Z * option nat * option Q) -> Result (list Scaled).
Variable predict : Model -> list Scaled -> Result (list Z).
Variable read_csv : string -> W -> Outcome DataFrame.
Variable to_csv : list Scored.t -> string -> W -> W * option Failure.

(** [send_email_gmail(to_email, subject, body, from_email, app_password)] *)
Variable send_email_gmail : Mail -> Cell -> Cell -> W -> W * bool.

Definition main (args : Args) (w : W) : Run W :=
  let EMAIL_USER := from_option CStr CNone (getenv "EMAIL_USER") in
  let EMAIL_PASS := from_option CStr CNone (getenv "EMAIL_PASS") in
  if negb (dry_run args) && (negb (Py.truthy EMAIL_USER) || negb (Py.truthy EMAIL_PASS))
  then {| world := w; saved := None; mailing := None; raised := Some credentials_not_set |}
  else
    match
      '(scaler, kmeans) ← load_models path_exists joblib_load "rfm_scaler.pkl" "rfm_kmeans.pkl" w;
      raw ← read_csv (input args) w;
      tx ← propagate (clean_transactions astype_str to_numeric to_datetime raw);
      '(features, snapshot_date) ← propagate (Cli.main_aggregate tx);
      propagate (score_segments Scaled (transform scaler) (predict kmeans) features)
    with
    | Failed f => {| world := w; saved := None; mailing := None; raised := Some f |}
    | Done scored =>
        match to_csv scored (output args) w with
        | (w, Some f) =>
            {| world := w; saved := Some scored; mailing := None; raised := Some f |}
        | (w, None) =>
            if negb (dry_run args) then
              let loop :=
                Cli.send_emails str_num (fun m => send_email_gmail m EMAIL_USER EMAIL_PASS)
                  (limit args) (map row_of_scored scored) w in
              {| world := sink loop; saved := Some scored; mailing := Some loop;
                 raised := match exit loop with
                           | Raised e => Some (Uncaught e)
                           | _ => None
                           end |}
            else {| world := w; saved := Some scored; mailing := None; raised := None |}
        end
    end.

End main.

End Main.

(** ** Sample tables

    One reading of the open parts, enough to run the pipeline on tables
    whose cells are already typed: a number prints as its integral part,
    a string converts to a number when it is an integer literal, and a
    numeric date cell counts days since the epoch. *)
Module Sample.

Definition str_num (q : Q) : string := Py.str_int (Qfloor q).

Definition astype_str (c : Cell) : string := Cli.py_str str_num c.

Definition to_numeric (c : Cell) : option Q :=
  match c with
  | CNum q => Some q
  | CStr s => inject_Z <$> Py.int_literal s
  | _ => None
  end.

Definition to_datetime (c : Cell) : option Z :=
  match c with
  | CNum q => Some (Qfloor q * Pd.one_day)
  | _ => None
  end.

Definition clean : DataFrame -> Result (list Transaction) :=
  clean_transactions astype_str to_numeric to_datetime.

(** A raw row with the ten required cells. *)
Definition raw (invoice : Cell) (description : string) (quantity price : Cell)
    (day : Z) (customer name email : Cell) : gmap string Cell :=
  list_to_map
    [("InvoiceNo", invoice); ("StockCode", CStr "S1"); ("Description", CStr description);
     ("Quantity", quantity); ("InvoiceDate", CNum (inject_Z day)); ("UnitPrice", price);
     ("CustomerID", customer); ("Name", name); ("Email", email); ("Country", CStr "UK")].

Definition table (rs : list (gmap string Cell)) : DataFrame :=
  {| columns := REQUIRED_COLUMNS; rows := rs |}.

(** One cancelled and one valid invoice of customer 7 on two days, and a
    customer 9 whose email cell holds the empty string. *)
Definition orders : DataFrame :=
  table [ raw (CStr "C1001") "Mug" (CNum 1) (CNum 10) 1 (CNum 7) (CStr "Ann") (CStr "ann@x.org");
          raw (CStr "1002") "Mug" (CNum 3) (CNum 10) 2 (CNum 7) (CStr "Ann") (CStr "ann@x.org");
          raw (CNum 1003) "Cup" (CNum 3) (CNum (5 # 2)) 5 (CNum 9) CNaN (CStr "") ].

(** A table in which every invoice is a cancellation. *)
Definition all_cancelled : DataFrame :=
  table [ raw (CStr "C1001") "Mug" (CNum 1) (CNum 10) 1 (CNum 7) (CStr "Ann") (CStr "ann@x.org") ].

(** The second and the third order as the cleaner returns them. *)
Definition valid_order : Transaction :=
  {| InvoiceNo := "1002"; StockCode := "S1"; Description := "Mug";
     Quantity := Some 3%Q; InvoiceDate := Some (2 * Pd.one_day); UnitPrice := Some 10%Q;
     CustomerID := Some 7; Name := CStr "Ann"; Email := CStr "ann@x.org"; Country := CStr "UK";
     TotalPrice := Some (3 * 10)%Q |}.

Definition empty_email_order : Transaction :=
  {| InvoiceNo := "1003"; StockCode := "S1"; Description := "Cup";
     Quantity := Some 3%Q; InvoiceDate := Some (5 * Pd.one_day); UnitPrice := Some (5 # 2)%Q;
     CustomerID := Some 9; Name := CNaN; Email := CStr ""; Country := CStr "UK";
     TotalPrice := Some (3 * (5 # 2))%Q |}.

(** A stand-in for the fitted artifacts: the scaler passes the monetary
    value on, the model cuts it at 10, 20 and 30. *)
Definition scaler_transform (rfm : list (option Z * option nat * option Q)) : Result (list Q) :=
  Ok (map (fun x => default 0%Q x.2) rfm).

Definition kmeans_predict (scaled : list Q) : Result (list Z) :=
  Ok (map (fun m => if Pd.Qltb m 10 then 0 else if Pd.Qltb m 20 then 1
                    else if Pd.Qltb m 30 then 2 else 3) scaled).

(** The feature rows of [orders], as the script derives them. *)
Definition ann : Feature.t :=
  {| Feature.CustomerID := 7; Feature.Name := CStr "Ann"; Feature.Email := CStr "ann@x.org";
     Feature.Last_Purchase := Some (2 * Pd.one_day); Feature.Fav_Category := Some "Mug";
     Feature.Total_Spent := Some 30%Q; Feature.Last_Purchase_Days_Ago := Some 4;
     Feature.Recency := Some 4; Feature.Frequency := Some 1%nat;
     Feature.Monetary := Some 30%Q |}.

Definition nine : Feature.t :=
  {| Feature.CustomerID := 9; Feature.Name := CNaN; Feature.Email := CStr "";
     Feature.Last_Purchase := Some (5 * Pd.one_day); Feature.Fav_Category := Some "Cup";
     Feature.Total_Spent := Some (15 # 2)%Q; Feature.Last_Purchase_Days_Ago := Some 1;
     Feature.Recency := Some 1; Feature.Frequency := Some 1%nat;
     Feature.Monetary := Some (15 # 2)%Q |}.

(** Rows for the dispatch loop, and two mail sinks over an outbox: one
    delivers everything, one refuses a given address. *)
Definition recipient_row (name email : Cell) (segment : string) : MailRow.t :=
  {| MailRow.Name := name; MailRow.Email := email; MailRow.Segment := segment;
     MailRow.Last_Purchase_Days_Ago := CNum 4; MailRow.Fav_Category := CStr "Mug" |}.

Definition ann_row : MailRow.t := recipient_row (CStr "Ann") (CStr "ann@x.org") "VIP Customers".
Definition bob_row : MailRow.t := recipient_row (CStr "Bob") (CStr "bob@x.org") "Regular Customers".
Definition cy_row : MailRow.t := recipient_row (CStr "Cy") (CStr "cy@x.org") "At-Risk Customers".
Definition no_address_row : MailRow.t := recipient_row (CStr "Dee") (CStr "") "VIP Customers".
Definition no_at_row : MailRow.t := recipient_row (CStr "Eve") (CStr "eve.x.org") "VIP Customers".

Definition outbox (m : Mail) (w : list Mail) : list Mail * bool := (w ++ [m], true)%list.

Definition bouncing (bad : string) (m : Mail) (w : list Mail) : list Mail * bool :=
  if String.eqb (to_email m) bad then (w, false) else (w ++ [m], true)%list.

Definition cleaned_orders : list Transaction := [valid_order; empty_email_order].

(** Cleaned rows of one customer: "Mug" and "Cup" tie on quantity (3) and
    on line total (30); "Pan" has the larger line total but the smaller
    quantity. *)
Definition bought (invoice description : string) (quantity price : Q) : Transaction :=
  {| InvoiceNo := invoice; StockCode := "S1"; Description := description;
     Quantity := Some quantity; InvoiceDate := Some (2 * Pd.one_day); UnitPrice := Some price;
     CustomerID := Some 7; Name := CStr "Ann"; Email := CStr "ann@x.org"; Country := CStr "UK";
     TotalPrice := Some (quantity * price)%Q |}.

Definition tied_orders : list Transaction :=
  [bought "1002" "Mug" 3 10; bought "1002" "Pan" 2 50; bought "1005" "Cup" 3 10].

(** A run of [main]: the credentials are in the environment, both
    artifacts are on disk, the input file holds [orders], the table can
    be written, and the outbox is the mail server. *)
Definition getenv (k : string) : option string :=
  if String.eqb k "EMAIL_USER" then Some "shop@x.org"
  else if String.eqb k "EMAIL_PASS" then Some "app-password"
  else None.

Definition main (args : Main.Args) : Main.Run (list Mail) :=
  Main.main astype_str to_numeric to_datetime str_num getenv
    (fun _ _ => true) (fun _ _ => Done tt)
    (fun _ => scaler_transform) (fun _ => kmeans_predict)
    (fun _ _ => Done orders) (fun _ _ w => (w, None))
    (fun m _ _ => outbox m) args [].

Definition send_all : Main.Args :=
  {| Main.input := "orders.csv"; Main.output := "customers_segmented.csv";
     Main.dry_run := false; Main.limit := None |}.

Definition rehearsal : Main.Args :=
  {| Main.input := "orders.csv"; Main.output := "customers_segmented.csv";
     Main.dry_run := true; Main.limit := None |}.

(** The scored table of [orders]. *)
Definition scored_orders : list Scored.t :=
  [ {| Scored.features := ann; Scored.Cluster := 3; Scored.Segment := "Unknown" |};
    {| Scored.features := nine; Scored.Cluster := 0; Scored.Segment := "At-Risk Customers" |} ].

(** An upload that reads as [orders] at the first attempt. *)
Definition read_orders (raw_bytes : string) (encoding : option string) : Outcome DataFrame :=
  Done orders.

End Sample.

(** * Properties *)

(** ** Lists and the [Result] monad *)

Lemma filter_Forall_true {A} (f : A -> bool) (l : list A) :
  Forall (fun x => f x = true) (List.filter f l).
Proof.
  induction l as [|x l IH]; simpl; [constructor|].
  destruct (f x) eqn:E; [constructor|]; done.
Qed.

Lemma filter_Forall_keep {A} (P : A -> Prop) (f : A -> bool) (l : list A) :
  Forall P l -> Forall P (List.filter f l).
Proof.
  induction 1 as [|x l Hx Hl IH]; simpl; [constructor|].
  destruct (f x); [constructor|]; done.
Qed.

Lemma bind_Ok {A B} (a : A) (k : A -> Result B) : (Ok a ≫= k) = k a.
Proof. reflexivity. Qed.

Lemma bind_Raise {A B} (e : Exception) (k : A -> Result B) : (Raise e ≫= k) = Raise e.
Proof. reflexivity. Qed.

Lemma mapM_cons {A B} (f : A -> Result B) (x : A) (l : list A) :
  mapM f (x :: l) = (y ← f x; k ← mapM f l; mret (y :: k)).
Proof. reflexivity. Qed.

Lemma mapM_Ok_total {A B} (f : A -> Result B) (l : list A) :
  Forall (fun x => exists y, f x = Ok y) l -> exists k, mapM f l = Ok k.
Proof.
  induction 1 as [|x l [y Hy] _ [k Hk]].
  - by exists [].
  - exists (y :: k). by rewrite mapM_cons, Hy, bind_Ok, Hk.
Qed.

Lemma mapM_Raise_inv {A B} (f : A -> Result B) (l : list A) e :
  mapM f l = Raise e -> Exists (fun x => f x = Raise e) l.
Proof.
  induction l as [|x l IH]; [done|].
  rewrite mapM_cons. destruct (f x) as [y|e'] eqn:Hx.
  - rewrite bind_Ok. destruct (mapM f l) as [k|e'] eqn:Hl; [done|].
    rewrite bind_Raise. intros [= ->]. right. by apply IH.
  - rewrite bind_Raise. intros [= ->]. by left.
Qed.

(** ** pandas operations *)

Section sort_values_facts.
Context {A : Type} (leb : A -> A -> bool).

Lemma insert_sorted_perm x l : Pd.insert_sorted leb x l ≡ₚ x :: l.
Proof.
  induction l as [|y l IH]; simpl; [done|].
  destruct (leb x y); [done|]. rewrite IH. apply Permutation_swap.
Qed.

Lemma sort_values_perm l : Pd.sort_values leb l ≡ₚ l.
Proof.
  induction l as [|x l IH]; simpl; [done|].
  by rewrite insert_sorted_perm, IH.
Qed.

Lemma elem_of_sort_values x l : x ∈ Pd.sort_values leb l <-> x ∈ l.
Proof. by rewrite sort_values_perm. Qed.

Lemma NoDup_sort_values l : NoDup l -> NoDup (Pd.sort_values leb l).
Proof. by rewrite sort_values_perm. Qed.

End sort_values_facts.

Section unique_facts.
Context {A : Type} `{EqDecision A}.

Lemma elem_of_unique_from (seen l : list A) x :
  x ∈ Pd.unique_from seen l <-> x ∈ l /\ x ∉ seen.
Proof.
  revert seen. induction l as [|y l IH]; intros seen; simpl.
  - rewrite elem_of_nil. tauto.
  - case_bool_decide as Hy.
    + rewrite IH, elem_of_cons. split; [tauto|]. intros [[->|?] ?]; tauto.
    + rewrite !elem_of_cons, IH, elem_of_cons. split.
      * intros [->|(? & ?)]; tauto.
      * intros [[->|?] ?]; [tauto|]. destruct (decide (x = y)); tauto.
Qed.

Lemma NoDup_unique_from (seen l : list A) : NoDup (Pd.unique_from seen l).
Proof.
  revert seen. induction l as [|y l IH]; intros seen; simpl; [constructor|].
  case_bool_decide; [done|]. constructor; [|done].
  rewrite elem_of_unique_from, elem_of_cons. tauto.
Qed.

Lemma elem_of_unique (l : list A) x : x ∈ Pd.unique l <-> x ∈ l.
Proof. unfold Pd.unique. rewrite elem_of_unique_from, elem_of_nil. tauto. Qed.

Lemma NoDup_unique (l : list A) : NoDup (Pd.unique l).
Proof. apply NoDup_unique_from. Qed.

End unique_facts.

Section groupby_facts.
Context {R K A : Type} `{EqDecision K}.
Context (key_leb : K -> K -> bool) (key : R -> option K) (agg : list R -> A).

Lemma groupby_index df :
  (Pd.groupby key_leb key agg df).*1 = Pd.sort_values key_leb (Pd.unique (omap key df)).
Proof.
  unfold Pd.groupby. rewrite <- list_fmap_compose.
  induction (Pd.sort_values _ _) as [|k l IH]; simpl; [done|]. by f_equal.
Qed.

Lemma elem_of_groupby_index df k :
  k ∈ (Pd.groupby key_leb key agg df).*1 <-> exists r, r ∈ df /\ key r = Some k.
Proof. by rewrite groupby_index, elem_of_sort_values, elem_of_unique, list_elem_of_omap. Qed.

Lemma NoDup_groupby_index df : NoDup (Pd.groupby key_leb key agg df).*1.
Proof. rewrite groupby_index. apply NoDup_sort_values, NoDup_unique. Qed.

Lemma elem_of_groupby df k a :
  (k, a) ∈ Pd.groupby key_leb key agg df <->
  (exists r, r ∈ df /\ key r = Some k)
  /\ a = agg (List.filter (fun r => bool_decide (key r = Some k)) df).
Proof.
  unfold Pd.groupby. rewrite list_elem_of_fmap. split.
  - intros (k' & [= -> ->] & Hk).
    split; [|done]. by rewrite elem_of_sort_values, elem_of_unique, list_elem_of_omap in Hk.
  - intros [Hk ->]. exists k. split; [done|].
    by rewrite elem_of_sort_values, elem_of_unique, list_elem_of_omap.
Qed.

End groupby_facts.

Lemma lookup_groupby {R A} (key : R -> option Z) (agg : list R -> A) df k :
  (exists r, r ∈ df /\ key r = Some k) ->
  Pd.lookup_index k (Pd.groupby Z.leb key agg df)
  = Some (agg (List.filter (fun r => bool_decide (key r = Some k)) df)).
Proof.
  intros Hk. unfold Pd.lookup_index.
  apply elem_of_list_to_map_1; [apply NoDup_groupby_index|].
  by apply elem_of_groupby.
Qed.

(** *** The stable sort: order and first rows *)

Section sort_values_order.
Context {A : Type} (leb : A -> A -> bool).
Hypothesis leb_total : forall x y, leb x y = true \/ leb y x = true.
Hypothesis leb_trans : forall x y z, leb x y = true -> leb y z = true -> leb x z = true.

Local Abbreviation le := (fun x y => leb x y = true).

Lemma insert_sorted_sorted x l :
  StronglySorted le l -> StronglySorted le (Pd.insert_sorted leb x l).
Proof.
  induction 1 as [|y l Hl IH Hy]; simpl.
  - repeat constructor.
  - destruct (leb x y) eqn:Hxy.
    + constructor; [by constructor|]. constructor; [done|].
      eapply Forall_impl; [exact Hy|]. intros z Hz. by eapply leb_trans.
    + constructor; [done|]. rewrite insert_sorted_perm. constructor; [|done].
      destruct (leb_total x y); congruence.
Qed.

Lemma sort_values_sorted l : StronglySorted le (Pd.sort_values leb l).
Proof.
  induction l as [|x l IH]; simpl; [constructor|]. by apply insert_sorted_sorted.
Qed.

Local Abbreviation first_best := (first_best leb).

Lemma head_filter_insert_sorted p a s :
  StronglySorted le s ->
  head (List.filter p (Pd.insert_sorted leb a s))
  = if p a then
      match head (List.filter p s) with
      | None => Some a
      | Some h => if leb a h then Some a else Some h
      end
    else head (List.filter p s).
Proof.
  induction 1 as [|y s Hs IH Hy]; simpl.
  - by destruct (p a).
  - destruct (leb a y) eqn:Hay; simpl.
    + destruct (p a) eqn:Hpa; [|done]. simpl.
      destruct (p y) eqn:Hpy; simpl; [by rewrite Hay|].
      destruct (head (List.filter p s)) as [h|] eqn:Hh; [|done].
      assert (Hin : h ∈ s).
      { destruct (List.filter p s) as [|h' fs] eqn:Hf; simplify_eq/=.
        apply list_elem_of_In. eapply (proj1 (filter_In p h s)).
        rewrite Hf. by left. }
      rewrite Forall_forall in Hy. by rewrite (leb_trans a y h Hay (Hy h Hin)).
    + destruct (p y) eqn:Hpy; simpl.
      * destruct (p a); [by rewrite Hay|done].
      * exact IH.
Qed.

Lemma head_filter_sort_values p l :
  head (List.filter p (Pd.sort_values leb l)) = first_best p l.
Proof.
  induction l as [|a l IH]; simpl; [done|].
  rewrite head_filter_insert_sorted by apply sort_values_sorted. by rewrite IH.
Qed.

Lemma first_best_None p l : first_best p l = None -> forall y, y ∈ l -> p y = false.
Proof.
  induction l as [|a l IH]; simpl; intros H y Hy; [by apply elem_of_nil in Hy|].
  destruct (p a) eqn:Hpa.
  - destruct (first_best p l) as [h|]; [by destruct (leb a h)|done].
  - apply elem_of_cons in Hy as [->|Hy]; [done|]. by apply IH.
Qed.

Lemma first_best_elem p l h : first_best p l = Some h -> h ∈ l /\ p h = true.
Proof.
  revert h. induction l as [|a l IH]; simpl; intros h H; [done|].
  destruct (p a) eqn:Hpa.
  - destruct (first_best p l) as [h'|].
    + destruct (leb a h'); simplify_eq; [split; [by left|done]|].
      destruct (IH h eq_refl). split; [by right|done].
    + simplify_eq. split; [by left|done].
  - destruct (IH h H). split; [by right|done].
Qed.

(** The first row is one that may stand before every other row
    satisfying [p] ... *)
Lemma first_best_least p l h :
  first_best p l = Some h -> forall y, y ∈ l -> p y = true -> leb h y = true.
Proof.
  revert h. induction l as [|a l IH]; simpl; intros h H y Hy Hpy; [done|].
  assert (Hrefl : forall x, leb x x = true) by (intros x; by destruct (leb_total x x)).
  destruct (p a) eqn:Hpa.
  - destruct (first_best p l) as [h'|] eqn:Hb.
    + destruct (leb a h') eqn:Hah; simplify_eq.
      * apply elem_of_cons in Hy as [->|Hy]; [done|].
        eapply leb_trans; [exact Hah|]. by apply IH.
      * apply elem_of_cons in Hy as [->|Hy]; [|by apply IH].
        destruct (leb_total a h); congruence.
    + simplify_eq. apply elem_of_cons in Hy as [->|Hy]; [done|].
      rewrite (first_best_None p l Hb y Hy) in Hpy. done.
  - apply elem_of_cons in Hy as [->|Hy]; [congruence|]. by apply IH.
Qed.

(** ... and among the rows it ties with it is the earliest of the
    unsorted list: no row before it may stand before it. *)
Lemma first_best_earliest p l h :
  first_best p l = Some h ->
  exists l1 l2, l = (l1 ++ h :: l2)%list
                /\ forall y, y ∈ l1 -> p y = true -> leb y h = false.
Proof.
  revert h. induction l as [|a l IH]; simpl; intros h H; [done|].
  destruct (p a) eqn:Hpa.
  - destruct (first_best p l) as [h'|] eqn:Hb.
    + destruct (leb a h') eqn:Hah; simplify_eq.
      * exists [], l. split; [done|]. intros y Hy. by apply elem_of_nil in Hy.
      * destruct (IH h eq_refl) as (l1 & l2 & -> & Hl1).
        exists (a :: l1), l2. split; [done|].
        intros y [->|Hy]%elem_of_cons ?; [done|]. by apply Hl1.
    + simplify_eq. exists [], l. split; [done|]. intros y Hy. by apply elem_of_nil in Hy.
  - destruct (IH h H) as (l1 & l2 & -> & Hl1).
    exists (a :: l1), l2. split; [done|].
    intros y [->|Hy]%elem_of_cons ?; [congruence|]. by apply Hl1.
Qed.

End sort_values_order.

(** *** The orders used by the aggregator *)

Lemma pair_leb_spec (a b : Z * string) :
  pair_leb a b = true <-> a.1 < b.1 \/ (a.1 = b.1 /\ String.le a.2 b.2).
Proof.
  unfold pair_leb, String.le.
  rewrite orb_true_iff, andb_true_iff, Z.ltb_lt, Z.eqb_eq, Is_true_true. tauto.
Qed.

Lemma pair_leb_total (a b : Z * string) : pair_leb a b = true \/ pair_leb b a = true.
Proof.
  rewrite !pair_leb_spec.
  destruct (Z.lt_trichotomy a.1 b.1) as [?|[?|?]]; [left; by left| |right; by left].
  destruct (total String.le a.2 b.2) as [Hle|Hle].
  - left. right. by split.
  - right. right. by split.
Qed.

Lemma pair_leb_trans (a b c : Z * string) :
  pair_leb a b = true -> pair_leb b c = true -> pair_leb a c = true.
Proof.
  rewrite !pair_leb_spec. intros [?|[? Hab]] [?|[? Hbc]]; try lia.
  right. split; [lia|]. by etrans.
Qed.

Lemma Qltb_lt (x y : Q) : Pd.Qltb x y = true <-> (x < y)%Q.
Proof.
  unfold Pd.Qltb. rewrite negb_true_iff, <- not_true_iff_false, Qle_bool_iff.
  split; [apply Qnot_le_lt|apply Qlt_not_le].
Qed.

Lemma by_customer_qty_rev_spec (a b : Prod.t) :
  by_customer_qty_rev a b = true <->
  Prod.CustomerID a < Prod.CustomerID b
  \/ (Prod.CustomerID a = Prod.CustomerID b
      /\ ((Prod.Qty b < Prod.Qty a)%Q
          \/ ((Prod.Qty a == Prod.Qty b)%Q /\ (Prod.Rev b <= Prod.Rev a)%Q))).
Proof.
  unfold by_customer_qty_rev.
  rewrite !orb_true_iff, !andb_true_iff, orb_true_iff, andb_true_iff.
  rewrite Z.ltb_lt, Z.eqb_eq, Qltb_lt, Qeq_bool_iff, Qle_bool_iff. tauto.
Qed.

Lemma by_customer_qty_rev_total (a b : Prod.t) :
  by_customer_qty_rev a b = true \/ by_customer_qty_rev b a = true.
Proof.
  rewrite !by_customer_qty_rev_spec.
  destruct (Z.lt_trichotomy (Prod.CustomerID a) (Prod.CustomerID b)) as [?|[?|?]]; [lia| |lia].
  destruct (Q_dec (Prod.Qty a) (Prod.Qty b)) as [[?|?]|?].
  - right. right. split; [done|]. by left.
  - left. right. split; [done|]. by left.
  - destruct (Qlt_le_dec (Prod.Rev a) (Prod.Rev b)).
    + right. right. split; [done|]. right. split; [by symmetry|by apply Qlt_le_weak].
    + left. right. split; [done|]. by right.
Qed.

Lemma by_customer_qty_rev_trans (a b c : Prod.t) :
  by_customer_qty_rev a b = true -> by_customer_qty_rev b c = true ->
  by_customer_qty_rev a c = true.
Proof.
  rewrite !by_customer_qty_rev_spec.
  intros [?|[? Hab]] [?|[? Hbc]]; try lia.
  right. split; [lia|].
  destruct Hab as [Hab|[Hab Hab']], Hbc as [Hbc|[Hbc Hbc']].
  - left. lra.
  - left. lra.
  - left. lra.
  - right. split; lra.
Qed.

Lemma by_monetary_desc_total (a b : Feature.t) :
  by_monetary_desc a b = true \/ by_monetary_desc b a = true.
Proof.
  unfold by_monetary_desc.
  destruct (Feature.Monetary a) as [x|], (Feature.Monetary b) as [y|]; auto.
  rewrite !Qle_bool_iff. destruct (Qlt_le_dec x y); [right; by apply Qlt_le_weak|by left].
Qed.

Lemma by_monetary_desc_trans (a b c : Feature.t) :
  by_monetary_desc a b = true -> by_monetary_desc b c = true -> by_monetary_desc a c = true.
Proof.
  unfold by_monetary_desc.
  destruct (Feature.Monetary a) as [x|], (Feature.Monetary b) as [y|],
    (Feature.Monetary c) as [z|]; try done.
  rewrite !Qle_bool_iff. intros ??. lra.
Qed.

(** ** Transaction cleaner *)

Section Cleaner_facts.

Variable astype_str : Cell -> string.
Variable to_numeric : Cell -> option Q.
Variable to_datetime : Cell -> option Z.

Local Abbreviation clean := (clean_transactions astype_str to_numeric to_datetime).
Local Abbreviation convert := (convert_row astype_str to_numeric to_datetime).

Lemma absent_columns_nil cols :
  absent_columns cols = [] <-> Forall (fun c => c ∈ cols) REQUIRED_COLUMNS.
Proof.
  unfold absent_columns. induction REQUIRED_COLUMNS as [|c l IH]; simpl.
  - split; [constructor|done].
  - case_bool_decide as Hc; simpl.
    + rewrite IH. split; [by constructor|by inversion 1].
    + split; [done|]. by inversion 1.
Qed.

Lemma clean_schema_error df :
  absent_columns (columns df) <> [] ->
  clean df = Raise (missing_columns_error (absent_columns (columns df))).
Proof.
  intros Hne. unfold clean_transactions. fold (absent_columns (columns df)).
  by rewrite bool_decide_false.
Qed.

Lemma clean_schema_ok df :
  absent_columns (columns df) = [] ->
  clean df =
    (tx ← mapM convert (rows df);
     mret (map with_total
             (List.filter no_nulls (List.filter positive_values (List.filter not_cancelled tx))))).
Proof.
  intros He. unfold clean_transactions. fold (absent_columns (columns df)).
  by rewrite bool_decide_true.
Qed.

Lemma convert_row_raise r e :
  convert r = Raise e ->
  e = TypeError "cannot safely cast non-equivalent float64 to int64".
Proof.
  unfold convert_row, Pd.astype_Int64, mbind, Result_bind.
  destruct (to_numeric (r !!! "CustomerID")) as [q|]; [|done].
  destruct (Qeq_bool _ q); [done|]. by intros [= <-].
Qed.

Lemma absent_columns_exists cols :
  (exists c, c ∈ REQUIRED_COLUMNS /\ c ∉ cols) <-> absent_columns cols <> [].
Proof.
  rewrite absent_columns_nil. split.
  - intros (c & Hc & Hn) Hall. rewrite Forall_forall in Hall. by apply Hn, Hall.
  - intros Hn. apply not_Forall_Exists in Hn; [|apply _].
    apply Exists_exists in Hn as (c & Hc & Hn). by exists c.
Qed.

(** C9.  The schema error is raised exactly when a required column is
    absent; it then names the absent columns and is the same whatever the
    rows hold, so nothing was cleaned before it. *)
Theorem clean_transactions_schema_error df :
  ((exists missing, clean df = Raise (missing_columns_error missing))
   <-> (exists c, c ∈ REQUIRED_COLUMNS /\ c ∉ columns df))
  /\ ((exists c, c ∈ REQUIRED_COLUMNS /\ c ∉ columns df) ->
      forall rows',
        clean {| columns := columns df; rows := rows' |}
        = Raise (missing_columns_error (absent_columns (columns df)))).
Proof.
  split.
  - rewrite absent_columns_exists. split.
    + intros [missing Hm] He. rewrite (clean_schema_ok _ He) in Hm.
      destruct (mapM convert (rows df)) as [tx|e] eqn:Htx; [done|].
      rewrite bind_Raise in Hm.
      apply mapM_Raise_inv, Exists_exists in Htx as (r & _ & Hr).
      apply convert_row_raise in Hr. by rewrite Hr in Hm.
    + intros Hne. eexists. by apply clean_schema_error.
  - intros Hc rows'. apply absent_columns_exists in Hc.
    by apply (clean_schema_error {| columns := columns df; rows := rows' |}).
Qed.

Lemma gt0_Some x : Pd.gt0 x = true -> exists q, x = Some q /\ (0 < q)%Q.
Proof.
  destruct x as [q|]; [|done]. unfold Pd.gt0, Pd.Qltb. intros H.
  exists q. split; [done|]. apply Qnot_le_lt. rewrite <- Qle_bool_iff.
  by destruct (Qle_bool q 0).
Qed.

Lemma with_total_cleaned t :
  not_cancelled t = true -> positive_values t = true -> no_nulls t = true ->
  cleaned (with_total t).
Proof.
  unfold not_cancelled, positive_values, no_nulls, cleaned, Pd.notna; simpl.
  intros Hc [Hq Hp]%andb_true_iff [[Hid Hd]%andb_true_iff He]%andb_true_iff.
  apply bool_decide_eq_true in Hid, Hd.
  repeat split; auto using gt0_Some.
  - by destruct (Py.startswith "C" (InvoiceNo t)).
  - by destruct (Pd.isna (Email t)).
Qed.

(** C1 (amended).  A table with the required columns is cleaned unless a
    customer id is a number that is not integral; every row returned has
    a positive quantity and unit price, an invoice id that does not start
    with "C", a customer id, an invoice date, and an email that is not a
    missing value. *)
Theorem clean_transactions_rows_cleaned df :
  Forall (fun c => c ∈ columns df) REQUIRED_COLUMNS ->
  (forall out, clean df = Ok out -> Forall cleaned out)
  /\ (Forall (fun r => ~ raises (Pd.astype_Int64 (to_numeric (r !!! "CustomerID")))) (rows df) ->
      exists out, clean df = Ok out).
Proof.
  intros Hcols%absent_columns_nil. rewrite (clean_schema_ok _ Hcols). split.
  - intros out. destruct (mapM convert (rows df)) as [tx|e]; [|done].
    rewrite bind_Ok. intros [= <-]. apply Forall_map.
    set (l1 := List.filter not_cancelled tx).
    set (l2 := List.filter positive_values l1).
    assert (H1 : Forall (fun t => not_cancelled t = true) l2)
      by apply filter_Forall_keep, filter_Forall_true.
    assert (H2 : Forall (fun t => positive_values t = true) l2)
      by apply filter_Forall_true.
    pose proof (filter_Forall_true no_nulls l2) as H3.
    apply (filter_Forall_keep _ no_nulls) in H1, H2.
    rewrite Forall_forall in H1, H2, H3. apply Forall_forall.
    intros t Ht. apply with_total_cleaned; auto.
  - intros Hrows. destruct (mapM_Ok_total convert (rows df)) as [tx Htx].
    + eapply Forall_impl; [exact Hrows|]. intros r Hr. simpl in Hr. unfold convert_row.
      destruct (Pd.astype_Int64 _) as [cid|e] eqn:Hcid; [eexists; reflexivity|].
      exfalso. apply Hr. by exists e.
    + rewrite Htx, bind_Ok. eexists; reflexivity.
Qed.

End Cleaner_facts.

Lemma sample_columns : Forall (fun c => c ∈ columns Sample.orders) REQUIRED_COLUMNS.
Proof. apply Forall_forall. intros c Hc. exact Hc. Qed.

Lemma clean_transactions_rows_cleaned_witness :
  Forall (fun c => c ∈ columns Sample.orders) REQUIRED_COLUMNS
  /\ ((forall out, Sample.clean Sample.orders = Ok out -> Forall cleaned out)
      /\ (Forall (fun r => ~ raises (Pd.astype_Int64 (Sample.to_numeric (r !!! "CustomerID"))))
                 (rows Sample.orders) ->
          exists out, Sample.clean Sample.orders = Ok out)).
Proof.
  split; [exact sample_columns|].
  apply (clean_transactions_rows_cleaned Sample.astype_str Sample.to_numeric Sample.to_datetime
           Sample.orders sample_columns).
Defined.

(** C1, as stated, fails: the third sample order has the empty string as
    its email, which is not a missing value, and the row is returned. *)
Lemma clean_transactions_keeps_empty_email :
  ~ (forall df out,
       Forall (fun c => c ∈ columns df) REQUIRED_COLUMNS ->
       Sample.clean df = Ok out -> Forall cleaned_with_email out).
Proof.
  intros H.
  assert (Hout : exists t, Sample.clean Sample.orders = Ok [t; Sample.empty_email_order])
    by (eexists; vm_compute; reflexivity).
  destruct Hout as [t Hout].
  specialize (H _ _ sample_columns Hout).
  apply Forall_cons in H as [_ H]. apply Forall_cons in H as [[_ H] _].
  by apply H.
Qed.

(** ** Aggregator of the script *)

Lemma elem_of_rows_of c df t : t ∈ rows_of c df <-> t ∈ df /\ CustomerID t = Some c.
Proof.
  unfold rows_of. rewrite !list_elem_of_In, filter_In, bool_decide_eq_true. tauto.
Qed.

Lemma max_Some l m :
  Pd.max l = Some m <-> Some m ∈ l /\ forall d, Some d ∈ l -> d <= m.
Proof.
  revert m. induction l as [|x l IH]; intros m; simpl.
  - split; [done|]. intros [H%elem_of_nil _]. done.
  - destruct x as [a|].
    + destruct (Pd.max l) as [b|] eqn:Hb.
      * specialize (IH b) as [[Hin Hle] _]; [done|]. split.
        -- intros [= <-]. split.
           ++ destruct (Z.max_spec a b) as [[_ ->]|[_ ->]]; [by right|by left].
           ++ intros d [[= ->]|Hd]%elem_of_cons; [lia|]. specialize (Hle d Hd). lia.
        -- intros [Hm Hall]. f_equal.
           assert (a <= m) by (apply Hall; by left).
           assert (b <= m) by (apply Hall; by right).
           apply elem_of_cons in Hm as [[= ->]|Hm]; [lia|].
           specialize (Hle m Hm). lia.
      * assert (Hnone : forall d, Some d ∉ l).
        { intros d Hd. clear IH. induction l as [|[y|] l IHl]; simpl in Hb.
          - by apply elem_of_nil in Hd.
          - by destruct (Pd.max l).
          - apply elem_of_cons in Hd as [?|Hd]; [done|]. by apply IHl. }
        split.
        -- intros [= <-]. split; [by left|].
           intros d [[= ->]|Hd]%elem_of_cons; [lia|]. by apply Hnone in Hd.
        -- intros [[[= ->]|Hm]%elem_of_cons _]; [done|]. by apply Hnone in Hm.
    + rewrite IH. split.
      * intros [Hm Hall]. split; [by right|].
        intros d [?|Hd]%elem_of_cons; [done|]. by apply Hall.
      * intros [[?|Hm]%elem_of_cons Hall]; [done|]. split; [done|].
        intros d Hd. apply Hall. by right.
Qed.

Lemma max_latest_date rows m :
  Pd.max (map InvoiceDate rows) = Some m <-> latest_date m rows.
Proof.
  rewrite max_Some. unfold latest_date. split.
  - intros [(t & Ht & Hin)%list_elem_of_fmap Hall]. split; [by exists t|].
    intros t' d Ht' Hd. apply Hall. apply list_elem_of_fmap. by exists t'.
  - intros [(t & Hin & Ht) Hall]. split.
    + apply list_elem_of_fmap. by exists t.
    + intros d (t' & Ht' & Hin')%list_elem_of_fmap. by apply (Hall t').
Qed.

Lemma max_is_Some rows t d :
  t ∈ rows -> InvoiceDate t = Some d -> is_Some (Pd.max (map InvoiceDate rows)).
Proof.
  intros Hin Hd. induction rows as [|x rows IH]; [by apply elem_of_nil in Hin|].
  simpl. apply elem_of_cons in Hin as [<-|Hin].
  - rewrite Hd. by destruct (Pd.max _).
  - destruct (IH Hin) as [b ->]. by destruct (InvoiceDate x).
Qed.

Lemma lookup_days_since snap (s : list (Z * option Z)) k :
  Pd.lookup_index k (days_since snap s) = Pd.days_between snap <$> Pd.lookup_index k s.
Proof.
  unfold Pd.lookup_index, days_since.
  induction s as [|[k' v] s IH]; simpl; [by rewrite !lookup_empty|].
  destruct (decide (k' = k)) as [->|Hne].
  - by rewrite !lookup_insert_eq.
  - by rewrite !lookup_insert_ne.
Qed.

Lemma days_since_index snap (s : list (Z * option Z)) : (days_since snap s).*1 = s.*1.
Proof.
  unfold days_since. induction s as [|[k v] s IH]; simpl; [done|]. by f_equal.
Qed.

(** The customers of the rows of [prod_agg] are customers of the table. *)
Lemma elem_of_product_totals df p :
  p ∈ product_totals df ->
  (exists t, t ∈ df /\ CustomerID t = Some (Prod.CustomerID p)
             /\ Description t = Prod.Description p).
Proof.
  unfold product_totals. intros ([[c d] [q r]] & -> & Hin)%list_elem_of_fmap.
  apply elem_of_groupby in Hin as [(t & Ht & Hk) _]. exists t. simpl.
  destruct (CustomerID t) as [c'|]; simplify_eq/=. done.
Qed.

Lemma first_description_index df k :
  k ∈ (first_description (Pd.sort_values by_customer_qty_rev (product_totals df))).*1 ->
  exists t, t ∈ df /\ CustomerID t = Some k.
Proof.
  unfold first_description. rewrite elem_of_groupby_index.
  intros (p & Hp%elem_of_sort_values & [= <-]).
  destruct (elem_of_product_totals _ _ Hp) as (t & ? & ? & _). by exists t.
Qed.

(** The feature rows before the final sort, one per key of the index. *)
Lemma elem_of_merge_features lp da rc fr mo ts fav idn f :
  f ∈ merge_features lp da rc fr mo ts fav idn ->
  let k := Feature.CustomerID f in
  k ∈ Pd.concat_index [lp.*1; da.*1; rc.*1; fr.*1; mo.*1; ts.*1; fav.*1]
  /\ Feature.Last_Purchase f = mjoin (Pd.lookup_index k lp)
  /\ Feature.Fav_Category f = mjoin (Pd.lookup_index k fav)
  /\ Feature.Total_Spent f = Pd.lookup_index k ts
  /\ Feature.Last_Purchase_Days_Ago f = mjoin (Pd.lookup_index k da)
  /\ Feature.Recency f = mjoin (Pd.lookup_index k rc)
  /\ Feature.Frequency f = Pd.lookup_index k fr
  /\ Feature.Monetary f = Pd.lookup_index k mo.
Proof.
  unfold merge_features. rewrite elem_of_sort_values.
  intros (k & -> & Hk)%list_elem_of_fmap. simpl. auto 10.
Qed.

Lemma merge_features_row lp da rc fr mo ts fav idn k :
  k ∈ Pd.concat_index [lp.*1; da.*1; rc.*1; fr.*1; mo.*1; ts.*1; fav.*1] ->
  exists f, f ∈ merge_features lp da rc fr mo ts fav idn /\ Feature.CustomerID f = k.
Proof.
  intros Hk. unfold merge_features. eexists. rewrite elem_of_sort_values.
  split; [apply list_elem_of_fmap; eexists; split; [reflexivity|exact Hk]|done].
Qed.

Lemma NoDup_merge_features lp da rc fr mo ts fav idn :
  NoDup (Feature.CustomerID <$> merge_features lp da rc fr mo ts fav idn).
Proof.
  unfold merge_features.
  rewrite sort_values_perm, <- list_fmap_compose.
  erewrite list_fmap_ext; [|intros i x _; reflexivity].
  change (NoDup (id <$> Pd.concat_index [lp.*1; da.*1; rc.*1; fr.*1; mo.*1; ts.*1; fav.*1])).
  rewrite list_fmap_id. apply NoDup_unique.
Qed.

Section Cli_aggregator.

Variable df : list Transaction.

Local Abbreviation snapshot_date := (Pd.add_day (Pd.max (map InvoiceDate df))).
Local Abbreviation last_purchase := (by_customer (fun g => Pd.max (map InvoiceDate g)) df).
Local Abbreviation recency := (days_since snapshot_date last_purchase).
Local Abbreviation frequency := (by_customer (fun g => Pd.nunique (map InvoiceNo g)) df).
Local Abbreviation monetary := (by_customer (fun g => Pd.sum (map TotalPrice g)) df).
Local Abbreviation prod_agg := (Pd.sort_values by_customer_qty_rev (product_totals df)).
Local Abbreviation fav := (first_description prod_agg).
Local Abbreviation id_name :=
  (name_email (Pd.tail1 CustomerID (Pd.sort_values by_date df))).
Local Abbreviation features :=
  (merge_features last_purchase recency recency frequency monetary monetary fav id_name).

Lemma cli_derive_unfold :
  Cli.derive_customer_features df = Ok (features, snapshot_date).
Proof. reflexivity. Qed.

Lemma cli_index k :
  k ∈ Pd.concat_index [last_purchase.*1; recency.*1; recency.*1; frequency.*1;
                       monetary.*1; monetary.*1; fav.*1]
  <-> exists t, t ∈ df /\ CustomerID t = Some k.
Proof.
  unfold Pd.concat_index. rewrite elem_of_unique. simpl.
  rewrite !elem_of_app, elem_of_nil, !days_since_index.
  unfold by_customer. rewrite !elem_of_groupby_index. split.
  - intros [?|[?|[?|[?|[?|[?|[H|[]]]]]]]]; try done.
    by apply first_description_index.
  - intros H. by left.
Qed.

Lemma cli_feature_of_customer t c :
  t ∈ df -> CustomerID t = Some c ->
  exists f, f ∈ features /\ Feature.CustomerID f = c.
Proof.
  intros Ht Hc. apply merge_features_row, cli_index. by exists t.
Qed.

Lemma cli_feature_customer f :
  f ∈ features -> exists t, t ∈ df /\ CustomerID t = Some (Feature.CustomerID f).
Proof. intros (Hk & _)%elem_of_merge_features. by apply cli_index. Qed.

Lemma cli_feature_recency f :
  f ∈ features ->
  Feature.Recency f
  = Pd.days_between snapshot_date (Pd.max (map InvoiceDate (rows_of (Feature.CustomerID f) df)))
  /\ Feature.Last_Purchase_Days_Ago f = Feature.Recency f
  /\ Feature.Last_Purchase f = Pd.max (map InvoiceDate (rows_of (Feature.CustomerID f) df)).
Proof.
  intros Hf. destruct (cli_feature_customer f Hf) as (t & Ht & Hc).
  apply elem_of_merge_features in Hf as (_ & Hlp & _ & _ & Hda & Hrc & _).
  rewrite Hda, Hrc, Hlp, lookup_days_since.
  unfold by_customer. rewrite (lookup_groupby CustomerID _ df); [|by exists t]. done.
Qed.

Lemma cli_feature_frequency f :
  f ∈ features ->
  Feature.Frequency f = Some (Pd.nunique (map InvoiceNo (rows_of (Feature.CustomerID f) df))).
Proof.
  intros Hf. destruct (cli_feature_customer f Hf) as (t & Ht & Hc).
  apply elem_of_merge_features in Hf as (_ & _ & _ & _ & _ & _ & Hfr & _).
  rewrite Hfr. unfold by_customer. by rewrite (lookup_groupby CustomerID _ df); [|by exists t].
Qed.

End Cli_aggregator.

Lemma nunique_size (l : list string) : Pd.nunique l = size (list_to_set l : gset string).
Proof.
  unfold Pd.nunique. rewrite <- (size_list_to_set (C:=gset string) (Pd.unique l)) by apply NoDup_unique.
  f_equal. apply set_eq. intros x. by rewrite !elem_of_list_to_set, elem_of_unique.
Qed.

(** C5.  On a cleaned table the script's aggregator returns the feature
    rows and the snapshot date, the latest invoice date of the whole
    table plus one day; every customer of the table has a row; and in
    every row [Recency] and [Last_Purchase_Days_Ago] are the same number,
    the whole days from the customer's latest invoice date to the
    snapshot date. *)
Theorem derive_customer_features_recency (df : list Transaction) :
  Forall cleaned df ->
  exists features snapshot_date,
    Cli.derive_customer_features df = Ok (features, snapshot_date)
    /\ (forall t, t ∈ df -> exists f, f ∈ features /\ CustomerID t = Some (Feature.CustomerID f))
    /\ forall f, f ∈ features ->
       exists M L,
         latest_date M df
         /\ snapshot_date = Some (M + Pd.one_day)
         /\ latest_date L (rows_of (Feature.CustomerID f) df)
         /\ Feature.Recency f = Some ((M + Pd.one_day - L) / Pd.one_day)
         /\ Feature.Last_Purchase_Days_Ago f = Feature.Recency f.
Proof.
  intros Hclean. rewrite cli_derive_unfold. eexists _, _. split; [reflexivity|].
  rewrite Forall_forall in Hclean. split.
  - intros t Ht. destruct (Hclean t Ht) as (_ & _ & _ & [c Hc] & _).
    destruct (cli_feature_of_customer df t c Ht Hc) as (f & Hf & <-). by exists f.
  - intros f Hf.
    destruct (cli_feature_customer df f Hf) as (t & Ht & Hc).
    destruct (Hclean t Ht) as (_ & _ & _ & _ & [d Hd] & _).
    destruct (max_is_Some df t d Ht Hd) as [M HM].
    assert (Ht' : t ∈ rows_of (Feature.CustomerID f) df) by by apply elem_of_rows_of.
    destruct (max_is_Some _ t d Ht' Hd) as [L HL].
    destruct (cli_feature_recency df f Hf) as (Hrc & Hda & _).
    exists M, L. rewrite Hda, Hrc, HM, HL.
    repeat split; try done; by apply max_latest_date.
Qed.

(** C10.  Every customer of the table has exactly one feature row, and
    its [Frequency] is the number of distinct invoice ids among the
    customer's rows, at least 1. *)
Theorem derive_customer_features_frequency (df : list Transaction) :
  exists features snapshot_date,
    Cli.derive_customer_features df = Ok (features, snapshot_date)
    /\ NoDup (Feature.CustomerID <$> features)
    /\ forall t c, t ∈ df -> CustomerID t = Some c ->
       exists f n,
         f ∈ features /\ Feature.CustomerID f = c
         /\ Feature.Frequency f = Some n
         /\ n = size (list_to_set (InvoiceNo <$> rows_of c df) : gset string)
         /\ (1 <= n)%nat.
Proof.
  rewrite cli_derive_unfold. eexists _, _. split; [reflexivity|].
  split; [apply NoDup_merge_features|].
  intros t c Ht Hc.
  destruct (cli_feature_of_customer df t c Ht Hc) as (f & Hf & <-).
  exists f, (Pd.nunique (map InvoiceNo (rows_of (Feature.CustomerID f) df))).
  split; [done|]. split; [done|]. split; [by apply cli_feature_frequency|].
  split; [apply nunique_size|].
  rewrite nunique_size.
  assert (Hin : InvoiceNo t ∈ (list_to_set (map InvoiceNo (rows_of (Feature.CustomerID f) df)) : gset string)).
  { apply elem_of_list_to_set, list_elem_of_fmap. exists t. split; [done|]. by apply elem_of_rows_of. }
  destruct (size (list_to_set _)) eqn:Hsz; [|lia].
  apply size_empty_inv in Hsz. by apply Hsz in Hin.
Qed.

Lemma sample_orders_cleaned : Forall cleaned Sample.cleaned_orders.
Proof.
  repeat constructor; try (eexists; split; [reflexivity|done]); by eexists.
Qed.

Lemma derive_customer_features_recency_witness :
  Forall cleaned Sample.cleaned_orders
  /\ exists features snapshot_date,
       Cli.derive_customer_features Sample.cleaned_orders = Ok (features, snapshot_date)
       /\ (forall t, t ∈ Sample.cleaned_orders ->
           exists f, f ∈ features /\ CustomerID t = Some (Feature.CustomerID f))
       /\ forall f, f ∈ features ->
          exists M L,
            latest_date M Sample.cleaned_orders
            /\ snapshot_date = Some (M + Pd.one_day)
            /\ latest_date L (rows_of (Feature.CustomerID f) Sample.cleaned_orders)
            /\ Feature.Recency f = Some ((M + Pd.one_day - L) / Pd.one_day)
            /\ Feature.Last_Purchase_Days_Ago f = Feature.Recency f.
Proof.
  split; [exact sample_orders_cleaned|].
  apply (derive_customer_features_recency Sample.cleaned_orders sample_orders_cleaned).
Defined.

(** The sample orders, cleaned and aggregated by the script: the
    cancelled invoice counts for nothing, customer 7 has one invoice, 30
    spent, and a recency of 4 days against the snapshot of day 6. *)
Example derive_customer_features_sample :
  Sample.clean Sample.orders = Ok Sample.cleaned_orders
  /\ Cli.derive_customer_features Sample.cleaned_orders
     = Ok ([Sample.ann; Sample.nine], Some (6 * Pd.one_day)).
Proof. split; vm_compute; reflexivity. Qed.

(** X4.  The rows the script returns are ordered by [Monetary], largest
    first (a missing value last): this is the row order the dispatch loop
    walks. *)
Theorem cli_features_monetary_descending df features snapshot_date :
  Cli.derive_customer_features df = Ok (features, snapshot_date) ->
  StronglySorted (fun a b => by_monetary_desc a b = true) features.
Proof.
  intros [= <- _]. unfold merge_features.
  apply sort_values_sorted; [apply by_monetary_desc_total|apply by_monetary_desc_trans].
Qed.

Lemma cli_features_monetary_descending_witness :
  Cli.derive_customer_features Sample.cleaned_orders
  = Ok ([Sample.ann; Sample.nine], Some (6 * Pd.one_day))
  /\ StronglySorted (fun a b => by_monetary_desc a b = true) [Sample.ann; Sample.nine].
Proof.
  split; [vm_compute; reflexivity|].
  apply (cli_features_monetary_descending Sample.cleaned_orders
           [Sample.ann; Sample.nine] (Some (6 * Pd.one_day))).
  vm_compute; reflexivity.
Defined.

(** *** The favorite category in the script *)

Lemma product_key_rows c d df :
  List.filter
    (fun t => bool_decide ((fun c => (c, Description t)) <$> CustomerID t = Some (c, d))) df
  = product_rows c d df.
Proof.
  unfold product_rows. apply filter_ext. intros t.
  apply bool_decide_ext. destruct (CustomerID t); simpl; split; [by intros [= -> ->]|by intros [[= ->] ->]|done|by intros [? _]].
Qed.

Lemma elem_of_product_totals_iff df p :
  p ∈ product_totals df <->
  (exists t, t ∈ df /\ CustomerID t = Some (Prod.CustomerID p)
             /\ Description t = Prod.Description p)
  /\ Prod.Qty p = summed_quantity (Prod.CustomerID p) (Prod.Description p) df
  /\ Prod.Rev p = summed_revenue (Prod.CustomerID p) (Prod.Description p) df.
Proof.
  unfold product_totals, summed_quantity, summed_revenue.
  rewrite list_elem_of_fmap. split.
  - intros ([[c d] [q r]] & -> & Hin). simpl.
    apply elem_of_groupby in Hin as [(t & Ht & Hk) Hagg].
    rewrite product_key_rows in Hagg. simplify_eq/=.
    split; [|done]. exists t. destruct (CustomerID t); simplify_eq/=. done.
  - intros [(t & Ht & Hc & Hd) [Hq Hr]]. destruct p as [c d q r]. simpl in *.
    exists ((c, d), (q, r)). split; [done|].
    apply elem_of_groupby. rewrite product_key_rows. split; [|by rewrite Hq, Hr].
    exists t. split; [done|]. by rewrite Hc, Hd.
Qed.

Lemma product_totals_sorted df :
  StronglySorted
    (fun a b => pair_leb (Prod.CustomerID a, Prod.Description a)
                         (Prod.CustomerID b, Prod.Description b) = true)
    (product_totals df).
Proof.
  unfold product_totals, Pd.groupby. rewrite <- list_fmap_compose.
  eapply StronglySorted_fmap;
    [|apply (sort_values_sorted pair_leb pair_leb_total pair_leb_trans)].
  by intros [c d] [c' d'] H.
Qed.

Lemma cli_favorite_row (df : list Transaction) (f : Feature.t) :
  f ∈ (merge_features
         (by_customer (fun g => Pd.max (map InvoiceDate g)) df)
         (days_since (Pd.add_day (Pd.max (map InvoiceDate df)))
            (by_customer (fun g => Pd.max (map InvoiceDate g)) df))
         (days_since (Pd.add_day (Pd.max (map InvoiceDate df)))
            (by_customer (fun g => Pd.max (map InvoiceDate g)) df))
         (by_customer (fun g => Pd.nunique (map InvoiceNo g)) df)
         (by_customer (fun g => Pd.sum (map TotalPrice g)) df)
         (by_customer (fun g => Pd.sum (map TotalPrice g)) df)
         (first_description (Pd.sort_values by_customer_qty_rev (product_totals df)))
         (name_email (Pd.tail1 CustomerID (Pd.sort_values by_date df)))) ->
  Feature.Fav_Category f
  = Prod.Description <$>
      first_best by_customer_qty_rev
        (fun p => bool_decide (Some (Prod.CustomerID p) = Some (Feature.CustomerID f)))
        (product_totals df).
Proof.
  intros Hf. destruct (cli_feature_customer df f Hf) as (t & Ht & Hc).
  apply elem_of_merge_features in Hf as (_ & _ & Hfav & _).
  rewrite Hfav. unfold first_description.
  rewrite (lookup_groupby (fun p => Some (Prod.CustomerID p))); simpl.
  - by rewrite (head_filter_sort_values _ by_customer_qty_rev_total by_customer_qty_rev_trans).
  - exists {| Prod.CustomerID := Feature.CustomerID f; Prod.Description := Description t;
              Prod.Qty := summed_quantity (Feature.CustomerID f) (Description t) df;
              Prod.Rev := summed_revenue (Feature.CustomerID f) (Description t) df |}.
    split; [|done]. apply elem_of_sort_values, elem_of_product_totals_iff. simpl.
    split; [|done]. by exists t.
Qed.

(** The first row of customer [c] in the sorted [prod_agg]. *)
Lemma first_best_customer df c h :
  first_best by_customer_qty_rev
    (fun p => bool_decide (Some (Prod.CustomerID p) = Some c)) (product_totals df) = Some h ->
  let d := Prod.Description h in
  Prod.CustomerID h = c
  /\ (exists t, t ∈ rows_of c df /\ Description t = d)
  /\ forall t', t' ∈ rows_of c df ->
     let d' := Description t' in
     (summed_quantity c d' df <= summed_quantity c d df)%Q
     /\ ((summed_quantity c d' df == summed_quantity c d df)%Q ->
         (summed_revenue c d' df <= summed_revenue c d df)%Q)
     /\ ((summed_quantity c d' df == summed_quantity c d df)%Q ->
         (summed_revenue c d' df == summed_revenue c d df)%Q ->
         String.le d d').
Proof.
  intros Hb. simpl.
  destruct (first_best_elem _ _ _ _ Hb) as [Hh Hc].
  apply bool_decide_eq_true in Hc. injection Hc as Hc.
  pose proof Hh as ((t & Ht & Htc & Htd) & Hq & Hr)%elem_of_product_totals_iff.
  rewrite Hc in *. split; [done|].
  split; [exists t; split; [by apply elem_of_rows_of|done]|].
  intros t' [Ht' Hc']%elem_of_rows_of.
  set (y := {| Prod.CustomerID := c; Prod.Description := Description t';
               Prod.Qty := summed_quantity c (Description t') df;
               Prod.Rev := summed_revenue c (Description t') df |}).
  assert (Hy : y ∈ product_totals df).
  { apply elem_of_product_totals_iff. simpl. split; [|done]. by exists t'. }
  assert (Hpy : bool_decide (Some (Prod.CustomerID y) = Some c) = true)
    by by apply bool_decide_eq_true.
  pose proof (first_best_least _ by_customer_qty_rev_total by_customer_qty_rev_trans
                _ _ _ Hb y Hy Hpy) as Hle.
  apply by_customer_qty_rev_spec in Hle. simpl in Hle. rewrite Hc, Hq, Hr in Hle.
  destruct Hle as [?|[_ Hle]]; [lia|].
  split; [destruct Hle as [?|[? _]]; lra|].
  split; [intros ?; destruct Hle as [?|[_ ?]]; lra|].
  intros Hqe Hre.
  destruct (first_best_earliest by_customer_qty_rev _ _ _ Hb) as (l1 & l2 & Hsplit & Hl1).
  assert (Hyh : by_customer_qty_rev y h = true).
  { apply by_customer_qty_rev_spec. simpl. rewrite Hc, Hq, Hr. right. split; [done|].
    right. split; lra. }
  pose proof (product_totals_sorted df) as Hsorted. rewrite Hsplit in Hsorted.
  rewrite Hsplit in Hy. apply elem_of_app in Hy as [Hy|Hy].
  { rewrite (Hl1 y Hy Hpy) in Hyh. done. }
  apply elem_of_cons in Hy as [Hy|Hy].
  { rewrite <- Hy. simpl. done. }
  apply StronglySorted_app_1_r, StronglySorted_cons in Hsorted as [Hhd _].
  rewrite Forall_forall in Hhd. apply Hhd, pair_leb_spec in Hy. simpl in Hy.
  destruct Hy as [?|[_ ?]]; [lia|done].
Qed.



(** Two descriptions tie on quantity and on line total: the script picks
    "Cup", the first of the two in the sorted table, and not "Pan", whose
    line total is larger but whose quantity is smaller. *)
Example cli_favorite_category_tie :
  (fun r : list Feature.t * option Z => map Feature.Fav_Category r.1)
    <$> Cli.derive_customer_features Sample.tied_orders
  = Ok [Some "Cup"].
Proof. vm_compute; reflexivity. Qed.


(** ** Aggregator of the service *)

Lemma app_derive_leaves_at_groupby (df : list Transaction) :
  App.derive_customer_features df
  = Raise (AttributeError "'NoneType' object has no attribute 'groupby'").
Proof. unfold App.derive_customer_features, Pd.sort_values_inplace. apply bind_Raise. Qed.

(** C2, on [app/pipeline.py].  Whatever the cleaned table, the service's
    aggregator raises at line 66: [prod_agg] is [None].  No favorite
    category, and no feature row, is ever produced. *)
Theorem app_derive_customer_features_raises (df : list Transaction) :
  App.derive_customer_features df
  = Raise (AttributeError "'NoneType' object has no attribute 'groupby'").
Proof. apply app_derive_leaves_at_groupby. Qed.

(** C4, on [app/main.py].  A table of cancellations only is cleaned to
    zero rows; the service then calls the aggregator, which leaves with
    the attribute error above and never with the empty-input error of the
    script. *)
Theorem app_aggregate_empty_not_refused :
  Sample.clean Sample.all_cancelled = Ok []
  /\ App.segment_customers_aggregate []
     = Raise (AttributeError "'NoneType' object has no attribute 'groupby'")
  /\ (forall tx, App.segment_customers_aggregate tx <> Raise Cli.no_valid_transactions).
Proof.
  split; [by vm_compute|]. split.
  - apply app_derive_leaves_at_groupby.
  - intros tx. unfold App.segment_customers_aggregate.
    by rewrite app_derive_leaves_at_groupby.
Qed.

(** ** Segment scorer *)

Lemma segment_of_cases (c : Z) :
  segment_of c =
    if bool_decide (c = 0) then "At-Risk Customers"
    else if bool_decide (c = 1) then "Regular Customers"
    else if bool_decide (c = 2) then "VIP Customers"
    else "Unknown".
Proof.
  unfold segment_of, CLUSTER_MAP.
  repeat case_bool_decide; simplify_map_eq; done.
Qed.

Section Scorer_facts.

Variable Scaled : Type.
Variable scaler_transform : list (option Z * option nat * option Q) -> Result (list Scaled).
Variable kmeans_predict : list Scaled -> Result (list Z).

Local Abbreviation score := (score_segments Scaled scaler_transform kmeans_predict).

(** What [score_segments] returns, when it returns. *)
Lemma score_segments_Ok features out :
  score features = Ok out <->
  exists scaled clusters,
    scaler_transform (map rfm_of features) = Ok scaled
    /\ kmeans_predict scaled = Ok clusters
    /\ length clusters = length features
    /\ out = zip_with (fun f c => {| Scored.features := f; Scored.Cluster := c;
                                     Scored.Segment := segment_of c |}) features clusters.
Proof.
  unfold score_segments. split.
  - destruct (scaler_transform _) as [scaled|e] eqn:Ht; [|done]. rewrite bind_Ok.
    destruct (kmeans_predict scaled) as [clusters|e] eqn:Hp; [|done]. rewrite bind_Ok.
    case_bool_decide as Hlen; [|done]. intros [= <-]. exists scaled, clusters. auto.
  - intros (scaled & clusters & -> & Hp & Hlen & ->). rewrite bind_Ok, Hp, bind_Ok.
    by rewrite bool_decide_true.
Qed.

(** C6.  In every scored row the segment name is the entry of the static
    table for the row's cluster id: 0, 1 and 2 have their names, every
    other integer gives "Unknown". *)
Theorem score_segments_static_lookup features out :
  score features = Ok out ->
  Forall (fun r =>
            Scored.Segment r = default "Unknown" (CLUSTER_MAP !! Scored.Cluster r)
            /\ (Scored.Cluster r = 0 -> Scored.Segment r = "At-Risk Customers")
            /\ (Scored.Cluster r = 1 -> Scored.Segment r = "Regular Customers")
            /\ (Scored.Cluster r = 2 -> Scored.Segment r = "VIP Customers")
            /\ (Scored.Cluster r <> 0 -> Scored.Cluster r <> 1 -> Scored.Cluster r <> 2 ->
                Scored.Segment r = "Unknown")) out.
Proof.
  intros (scaled & clusters & _ & _ & _ & ->)%score_segments_Ok.
  apply Forall_forall. intros r (f & c & -> & _ & _)%elem_of_zip_with. simpl.
  split; [done|]. rewrite segment_of_cases.
  repeat split; intros; repeat case_bool_decide; try done; lia.
Qed.

(** C7.  When the scaler and the model answer with one cluster id per
    row, [score_segments] returns as many rows as it was given, and row
    [i] is feature row [i], unchanged, with the [i]-th cluster id
    predicted for the table of (Recency, Frequency, Monetary) triples and
    the segment of that id.  It returns in no other case. *)
Theorem score_segments_preserves_order features :
  (forall scaled clusters,
     scaler_transform (map (fun f => (Feature.Recency f, Feature.Frequency f, Feature.Monetary f))
                           features) = Ok scaled ->
     kmeans_predict scaled = Ok clusters ->
     length clusters = length features ->
     exists out,
       score features = Ok out
       /\ length out = length features
       /\ map Scored.features out = features
       /\ map Scored.Cluster out = clusters
       /\ forall i f, features !! i = Some f ->
          exists c, clusters !! i = Some c
                    /\ out !! i = Some {| Scored.features := f; Scored.Cluster := c;
                                          Scored.Segment := segment_of c |})
  /\ (forall out, score features = Ok out ->
      exists scaled clusters,
        scaler_transform (map rfm_of features) = Ok scaled
        /\ kmeans_predict scaled = Ok clusters
        /\ length clusters = length features).
Proof.
  split.
  - intros scaled clusters Ht Hp Hlen.
    eexists. split; [apply score_segments_Ok; exists scaled, clusters; auto|].
    split; [rewrite length_zip_with; lia|].
    split; [|split].
    + clear Ht Hp. revert clusters Hlen.
      induction features as [|f fs IH]; intros [|c cs] Hlen; simplify_eq/=; f_equal; auto.
    + clear Ht Hp. revert clusters Hlen.
      induction features as [|f fs IH]; intros [|c cs] Hlen; simplify_eq/=; f_equal; auto.
    + intros i f Hf.
      destruct (clusters !! i) as [c|] eqn:Hc.
      * exists c. split; [done|]. rewrite lookup_zip_with, Hf. simpl. by rewrite Hc.
      * apply lookup_ge_None in Hc. apply lookup_lt_Some in Hf. lia.
  - intros out (scaled & clusters & ? & ? & ? & _)%score_segments_Ok. exists scaled, clusters. auto.
Qed.

End Scorer_facts.

Lemma score_segments_static_lookup_witness :
  score_segments Q Sample.scaler_transform Sample.kmeans_predict [Sample.ann; Sample.nine]
  = Ok [ {| Scored.features := Sample.ann; Scored.Cluster := 3; Scored.Segment := "Unknown" |};
         {| Scored.features := Sample.nine; Scored.Cluster := 0;
            Scored.Segment := "At-Risk Customers" |} ]
  /\ Forall (fun r =>
            Scored.Segment r = default "Unknown" (CLUSTER_MAP !! Scored.Cluster r)
            /\ (Scored.Cluster r = 0 -> Scored.Segment r = "At-Risk Customers")
            /\ (Scored.Cluster r = 1 -> Scored.Segment r = "Regular Customers")
            /\ (Scored.Cluster r = 2 -> Scored.Segment r = "VIP Customers")
            /\ (Scored.Cluster r <> 0 -> Scored.Cluster r <> 1 -> Scored.Cluster r <> 2 ->
                Scored.Segment r = "Unknown"))
       [ {| Scored.features := Sample.ann; Scored.Cluster := 3; Scored.Segment := "Unknown" |};
         {| Scored.features := Sample.nine; Scored.Cluster := 0;
            Scored.Segment := "At-Risk Customers" |} ].
Proof.
  split; [vm_compute; reflexivity|].
  apply (score_segments_static_lookup Q Sample.scaler_transform Sample.kmeans_predict
           [Sample.ann; Sample.nine]).
  vm_compute; reflexivity.
Defined.

(** The sample rows, scored: the order of the rows is kept. *)
Example score_segments_sample :
  Scored.features <$>
    default [] (match score_segments Q Sample.scaler_transform Sample.kmeans_predict
                        [Sample.nine; Sample.ann] with Ok out => Some out | Raise _ => None end)
  = [Sample.nine; Sample.ann].
Proof. vm_compute; reflexivity. Qed.

(** ** Message composer *)

Lemma int_many : Py.int (CStr "many") = Raise (ValueError "invalid literal for int() with base 10: 'many'").
Proof. reflexivity. Qed.

Lemma int_missing (days : Cell) : Pd.isna days = true -> raises (Py.int days).
Proof. destruct days; try done; intros _; eexists; reflexivity. Qed.

Lemma app_generate_email_else (name : Cell) (segment : string) (days fav : Cell) :
  segment <> "VIP Customers" -> segment <> "Regular Customers" -> Pd.isna days = true ->
  raises (App.generate_email name segment days fav).
Proof.
  intros Hvip%String.eqb_neq Hreg%String.eqb_neq Hna. unfold App.generate_email.
  destruct (Py.strip_method (Py.or_ name _)) as [n|e]; [rewrite bind_Ok|by exists e].
  destruct (Py.strip_method (Py.or_ fav _)) as [f|e]; [rewrite bind_Ok|by exists e].
  rewrite Hvip, Hreg. unfold Pd.notna. rewrite Hna. simpl negb. cbv iota.
  rewrite bind_Ok, int_many. by eexists.
Qed.

Lemma cli_generate_email_else str_num (name : Cell) (segment : string) (days fav : Cell) :
  segment <> "VIP Customers" -> segment <> "Regular Customers" -> Pd.isna days = true ->
  raises (Cli.generate_email str_num name segment days fav).
Proof.
  intros Hvip%String.eqb_neq Hreg%String.eqb_neq Hna. unfold Cli.generate_email.
  rewrite Hvip, Hreg. destruct (int_missing days Hna) as [e ->]. by exists e.
Qed.

(** C3, on the code.  A call whose segment is neither "VIP Customers" nor
    "Regular Customers" and whose days value is missing raises in both
    files: the service substitutes "many" and then converts it with
    [int]; the script converts the missing value itself. *)
Theorem generate_email_missing_days_raises
    (name : Cell) (segment : string) (last_purchase_days fav_category : Cell) :
  segment <> "VIP Customers" -> segment <> "Regular Customers" ->
  Pd.isna last_purchase_days = true ->
  raises (App.generate_email name segment last_purchase_days fav_category)
  /\ (forall str_num,
        raises (Cli.generate_email str_num name segment last_purchase_days fav_category)).
Proof.
  intros Hvip Hreg Hna. split.
  - by apply app_generate_email_else.
  - intros str_num. by apply cli_generate_email_else.
Qed.

Lemma generate_email_missing_days_raises_witness :
  ("At-Risk Customers" <> "VIP Customers" /\ "At-Risk Customers" <> "Regular Customers"
   /\ Pd.isna CNone = true)
  /\ (raises (App.generate_email (CStr "Ann") "At-Risk Customers" CNone (CStr "Mugs"))
      /\ (forall str_num,
            raises (Cli.generate_email str_num (CStr "Ann") "At-Risk Customers" CNone (CStr "Mugs")))).
Proof.
  split; [repeat split; discriminate|].
  apply (generate_email_missing_days_raises (CStr "Ann") "At-Risk Customers" CNone (CStr "Mugs"));
    [discriminate | discriminate | reflexivity].
Defined.

(** The failing call of the service, evaluated. *)
Example app_generate_email_at_risk_no_days :
  App.generate_email (CStr "Ann") "At-Risk Customers" CNone (CStr "Mugs")
  = Raise (ValueError "invalid literal for int() with base 10: 'many'").
Proof. reflexivity. Qed.

(** In the service a missing favorite category is rendered with the
    first default, "Your favourites"; only a blank one reaches the second
    default. *)
Example app_generate_email_no_category :
  App.generate_email (CStr "Ann") "VIP Customers" (CNum 3) CNone
  = Ok (vip_mail "Ann" "Your favourites")
  /\ App.generate_email (CStr "Ann") "VIP Customers" (CNum 3) (CStr "  ")
     = Ok (vip_mail "Ann" "your favorites").
Proof. split; reflexivity. Qed.

(** In the service a name that is pandas' missing value has no [strip]. *)
Example app_generate_email_nan_name :
  App.generate_email CNaN "VIP Customers" (CNum 3) (CStr "Mugs")
  = Raise (AttributeError "'float' object has no attribute 'strip'").
Proof. reflexivity. Qed.

(** X3 (the part of C3 that holds, in the script).  The script's composer
    returns a pair whenever the segment is one of the first two templates
    or the days value is a number; a missing or blank name is rendered as
    "there", and a missing or blank favorite category as "your
    favorites". *)
Theorem cli_generate_email_total (str_num : Q -> string)
    (name : Cell) (segment : string) (last_purchase_days fav_category : Cell) :
  ((segment = "VIP Customers" \/ segment = "Regular Customers"
    \/ exists q, last_purchase_days = CNum q) ->
   exists subject body,
     Cli.generate_email str_num name segment last_purchase_days fav_category
     = Ok (subject, body))
  /\ (missing_or_blank name ->
      Cli.generate_email str_num name segment last_purchase_days fav_category
      = Cli.generate_email str_num (CStr "there") segment last_purchase_days fav_category)
  /\ (missing_or_blank fav_category ->
      Cli.generate_email str_num name segment last_purchase_days fav_category
      = Cli.generate_email str_num name segment last_purchase_days (CStr "your favorites")).
Proof.
  unfold Cli.generate_email. split; [|split].
  - intros [->|[->|[q ->]]].
    + by eexists _, _.
    + by eexists _, _.
    + destruct (String.eqb segment "VIP Customers"); [by eexists _, _|].
      destruct (String.eqb segment "Regular Customers"); [by eexists _, _|].
      by eexists _, _.
  - intros [Hna|(s & -> & Hs)].
    + by rewrite Hna.
    + simpl. by rewrite Hs.
  - intros [Hna|(s & -> & Hs)].
    + by destruct fav_category.
    + by rewrite Hs.
Qed.

(** The script's composer on a missing name and a missing category. *)
Example cli_generate_email_fallbacks :
  Cli.generate_email Sample.str_num CNaN "VIP Customers" (CNum 3) CNone
  = Ok (vip_mail "there" "your favorites")
  /\ Cli.generate_email Sample.str_num (CStr "  ") "At-Risk Customers" (CNum 12) (CStr " ")
     = Ok (at_risk_subject "your favorites", at_risk_body "there" 12 "your favorites").
Proof. split; reflexivity. Qed.

(** ** Dispatch loop *)

Section Dispatch_facts.

Context {W : Type}.
Variable send_email_gmail : Mail -> W -> W * bool.
Variable recipient : Cell -> Result (option string).
Variable generate_email : Cell -> string -> Cell -> Cell -> Result (string * string).
Variable n : Z.
Hypothesis cap_positive : 1 <= n.

Local Abbreviation loop := (send_loop send_email_gmail recipient generate_email (Some n)).
Local Abbreviation mail := (mail_of recipient generate_email).

Lemma limit_reached_cap (sent : nat) :
  limit_reached (Some n) sent = bool_decide (n <= Z.of_nat sent).
Proof.
  unfold limit_reached. destruct (Z.eqb_spec n 0) as [->|_]; [lia|]. simpl.
  case_bool_decide; [by apply Z.leb_le|by apply Z.leb_gt; lia].
Qed.

Lemma omap_mail_cons r l :
  omap mail (r :: l) = match mail r with Some m => m :: omap mail l | None => omap mail l end.
Proof. reflexivity. Qed.

(** The loop from any row on: [log'] is what it adds to the log. *)
Lemma send_loop_from rows : forall w sent0 log,
  Z.of_nat sent0 < n ->
  exists (k : nat) log',
    (k <= length rows)%nat
    /\ attempts (loop rows w sent0 log) = (log ++ log')%list
    /\ log'.*1 = omap mail (take k rows)
    /\ sent (loop rows w sent0 log) = (sent0 + length (List.filter snd log'))%nat
    /\ Z.of_nat (sent (loop rows w sent0 log)) <= n
    /\ match exit (loop rows w sent0 log) with
       | Break =>
           Z.of_nat (sent (loop rows w sent0 log)) = n
           /\ exists r m, rows !! pred k = Some r /\ (1 <= k)%nat
                          /\ mail r = Some m /\ last log' = Some (m, true)
       | Exhausted => k = length rows /\ Z.of_nat (sent (loop rows w sent0 log)) < n
       | Raised e =>
           exists r, rows !! k = Some r
                     /\ (recipient (MailRow.Email r) = Raise e
                         \/ generate_email (MailRow.Name r) (MailRow.Segment r)
                              (MailRow.Last_Purchase_Days_Ago r) (MailRow.Fav_Category r) = Raise e)
       end.
Proof.
  induction rows as [|r rest IH]; intros w sent0 log Hlt.
  - exists 0%nat, []. simpl. rewrite app_nil_r. repeat split; auto with lia.
  - simpl.
    destruct (recipient (MailRow.Email r)) as [[email|]|e] eqn:Hrec.
    + destruct (generate_email _ _ _ _) as [[subject body]|e] eqn:Hgen.
      * set (m := {| to_email := email; subject := subject; body := body |}).
        assert (Hmail : mail r = Some m) by (unfold mail_of; by rewrite Hrec, Hgen).
        destruct (send_email_gmail m w) as [w' [|]] eqn:Hsend.
        -- rewrite limit_reached_cap. case_bool_decide as Hcap.
           ++ exists 1%nat, [(m, true)]. simpl. rewrite Hmail.
              repeat split; try done; try lia.
              exists r, m. repeat split; auto.
           ++ destruct (IH w' (S sent0) (log ++ [(m, true)])%list)
                as (k & log' & Hk & Hat & Hm & Hs & Hle & Hex); [lia|].
              exists (S k), ((m, true) :: log').
              rewrite firstn_cons, omap_mail_cons, Hmail, fmap_cons, Hm, Hat, <- app_assoc, Hs.
              cbn [length List.filter snd app].
              repeat split; try done; try lia.
              destruct (exit _); [lia| |done].
              destruct Hex as (? & r' & m' & Hr' & Hk1 & Hm' & Hlast).
              split; [lia|]. exists r', m'. repeat split; try done; try lia.
              ** destruct k; [lia|]. done.
              ** destruct log'; [done|]. done.
        -- destruct (IH w' sent0 (log ++ [(m, false)])%list)
             as (k & log' & Hk & Hat & Hm & Hs & Hle & Hex); [lia|].
           exists (S k), ((m, false) :: log').
           rewrite firstn_cons, omap_mail_cons, Hmail, fmap_cons, Hm, Hat, <- app_assoc, Hs.
           cbn [length List.filter snd app].
           repeat split; try done; try lia.
           destruct (exit _); [lia| |done].
           destruct Hex as (? & r' & m' & Hr' & Hk1 & Hm' & Hlast).
           split; [lia|]. exists r', m'. repeat split; try done; try lia.
           ** destruct k; [lia|]. done.
           ** destruct log'; [done|]. done.
      * exists 0%nat, []. simpl. rewrite app_nil_r. repeat split; auto with lia.
        exists r. auto.
    + assert (Hmail : mail r = None) by (unfold mail_of; by rewrite Hrec).
      destruct (IH w sent0 log) as (k & log' & Hk & Hat & Hm & Hs & Hle & Hex); [lia|].
      exists (S k), log'.
      rewrite firstn_cons, omap_mail_cons, Hmail.
      cbn [length].
      repeat split; try done; try lia.
      destruct (exit _); [lia| |done].
      destruct Hex as (? & r' & m' & Hr' & Hk1 & Hm' & Hlast).
      split; [lia|]. exists r', m'. repeat split; try done; try lia.
      destruct k; [lia|]. done.
    + exists 0%nat, []. simpl. rewrite app_nil_r. repeat split; auto with lia.
      exists r. auto.
Qed.

Lemma dispatch_stops_at_cap rows w :
  stops_at_cap recipient generate_email n rows
    (dispatch send_email_gmail recipient generate_email (Some n) rows w).
Proof.
  unfold dispatch, stops_at_cap.
  destruct (send_loop_from rows w 0%nat []) as (k & log' & Hk & Hat & Hm & Hs & Hle & Hex); [lia|].
  simpl in Hat, Hs. exists k. rewrite Hat. repeat split; auto.
Qed.

End Dispatch_facts.

(** *** The guards of the two loops *)

Lemma contains_lstrip c s : Py.contains c (Py.lstrip s) = true -> Py.contains c s = true.
Proof.
  induction s as [|a s IH]; simpl; [done|].
  destruct (Py.isspace a); [|done].
  intros H%IH. rewrite H. apply orb_true_r.
Qed.

Lemma contains_rev_app c s1 s2 :
  Py.contains c (String.rev_app s1 s2) = Py.contains c s1 || Py.contains c s2.
Proof.
  revert s2. induction s1 as [|a s1 IH]; intros s2; simpl; [done|].
  rewrite IH. simpl. by destruct (Ascii.eqb c a), (Py.contains c s1), (Py.contains c s2).
Qed.

Lemma contains_rev c s : Py.contains c (String.rev s) = Py.contains c s.
Proof. unfold String.rev. rewrite contains_rev_app. simpl. apply orb_false_r. Qed.

Lemma contains_strip c s : Py.contains c s = false -> Py.contains c (Py.strip s) = false.
Proof.
  intros Hs. destruct (Py.contains c (Py.strip s)) eqn:H; [|done].
  unfold Py.strip, Py.rstrip in H. rewrite contains_rev in H.
  apply contains_lstrip in H. rewrite contains_rev in H.
  apply contains_lstrip in H. congruence.
Qed.

(** A row whose email is [None], empty, or has no "@" yields no mail, in
    either loop. *)
Lemma no_address_no_mail str_num (r : MailRow.t) :
  MailRow.Email r = CNone \/ (exists s, MailRow.Email r = CStr s /\ Py.contains "@" s = false) ->
  mail_of App.recipient App.generate_email r = None
  /\ mail_of (Cli.recipient str_num) (Cli.generate_email str_num) r = None.
Proof.
  unfold mail_of, App.recipient, Cli.recipient.
  intros [->|(s & -> & Hs)]; simpl.
  - split; [done|]. by vm_compute.
  - rewrite Hs, (contains_strip _ _ Hs), andb_false_r. split; [|done].
    by destruct (negb (s =? ""))%string.
Qed.




(** A cap of 2 over five rows with an address: the first two are sent
    to, in row order, and the loop breaks (script and service alike). *)
Example send_emails_cap_two_of_five :
  let rows := [Sample.ann_row; Sample.bob_row; Sample.cy_row; Sample.ann_row; Sample.bob_row] in
  let st := Cli.send_emails Sample.str_num Sample.outbox (Some 2) rows [] in
  sent st = 2%nat /\ exit st = Break
  /\ to_email <$> sink st = ["ann@x.org"; "bob@x.org"]
  /\ App.send_emails Sample.outbox (Some 2) rows [] = st.
Proof. vm_compute. auto. Qed.

(** Rows without a usable address and a refused delivery do not count:
    with a cap of 1 the loop goes on to the first delivery that returns. *)
Example send_emails_skips_and_failures :
  let rows := [Sample.no_address_row; Sample.no_at_row; Sample.ann_row; Sample.bob_row;
               Sample.cy_row] in
  let st := Cli.send_emails Sample.str_num (Sample.bouncing "ann@x.org") (Some 1) rows [] in
  sent st = 1%nat /\ exit st = Break
  /\ (fun a => (to_email a.1, a.2)) <$> attempts st = [("ann@x.org", false); ("bob@x.org", true)].
Proof. vm_compute. auto. Qed.

(** * Further properties *)

(** ** Transaction cleaner: the cast, the line total, the row order *)

Lemma mapM_Ok_inv {A B} (f : A -> Result B) (l : list A) (k : list B) :
  mapM f l = Ok k -> Forall2 (fun x y => f x = Ok y) l k.
Proof.
  revert k. induction l as [|x l IH]; intros k.
  - intros [= <-]. constructor.
  - rewrite mapM_cons. destruct (f x) as [y|e] eqn:Hx; [|done].
    rewrite bind_Ok. destruct (mapM f l) as [k'|e] eqn:Hl; [|done].
    rewrite bind_Ok. intros [= <-]. constructor; auto.
Qed.

Lemma mapM_Raise_first {A B} (f : A -> Result B) (l : list A) e :
  Forall (fun x => forall e', f x = Raise e' -> e' = e) l ->
  Exists (fun x => raises (f x)) l -> mapM f l = Raise e.
Proof.
  induction 1 as [|x l Hx Hl IH]; [by inversion 1|].
  intros Hex. rewrite mapM_cons. destruct (f x) as [y|e'] eqn:Hfx.
  - rewrite bind_Ok. apply Exists_cons in Hex as [[e0 He0]|Hex]; [congruence|].
    by rewrite (IH Hex).
  - by rewrite (Hx e' eq_refl).
Qed.

Section Cleaner_more.

Variable astype_str : Cell -> string.
Variable to_numeric : Cell -> option Q.
Variable to_datetime : Cell -> option Z.

Local Abbreviation clean := (clean_transactions astype_str to_numeric to_datetime).
Local Abbreviation convert := (convert_row astype_str to_numeric to_datetime).

Lemma convert_row_raises r : raises (convert r) <-> non_integral_id to_numeric r.
Proof.
  unfold convert_row, non_integral_id, Pd.astype_Int64, raises.
  destruct (to_numeric (r !!! "CustomerID")) as [q|].
  - destruct (Qeq_bool (inject_Z (Qfloor q)) q) eqn:Hq; rewrite ?bind_Ok, ?bind_Raise.
    + split; [by intros [e ?]|]. intros (q' & [= <-] & ?). congruence.
    + split; [by exists q|by eexists].
  - rewrite bind_Ok. split; [by intros [e ?]|by intros (q & ? & _)].
Qed.

(** What the cleaner returns, when it returns. *)
Lemma clean_Ok_inv df out :
  clean df = Ok out ->
  exists tx,
    Forall2 (fun r t => convert r = Ok t) (rows df) tx
    /\ out = map with_total
               (List.filter no_nulls
                  (List.filter positive_values (List.filter not_cancelled tx))).
Proof.
  intros H. destruct (decide (absent_columns (columns df) = [])) as [He|Hne].
  - rewrite (clean_schema_ok _ _ _ _ He) in H.
    destruct (mapM convert (rows df)) as [tx|e] eqn:Htx; [|done].
    rewrite bind_Ok in H. injection H as <-. exists tx. split; [|done].
    by apply mapM_Ok_inv.
  - by rewrite (clean_schema_error _ _ _ _ Hne) in H.
Qed.

Lemma clean_Ok_cleaned df out : clean df = Ok out -> Forall priced out.
Proof.
  intros (tx & _ & ->)%clean_Ok_inv. apply Forall_map.
  set (l1 := List.filter not_cancelled tx).
  set (l2 := List.filter positive_values l1).
  assert (H1 : Forall (fun t => not_cancelled t = true) l2)
    by apply filter_Forall_keep, filter_Forall_true.
  assert (H2 : Forall (fun t => positive_values t = true) l2)
    by apply filter_Forall_true.
  pose proof (filter_Forall_true no_nulls l2) as H3.
  apply (filter_Forall_keep _ no_nulls) in H1, H2.
  rewrite Forall_forall in H1, H2, H3. apply Forall_forall.
  intros t Ht. split; [apply with_total_cleaned; auto|done].
Qed.



(** X7.  The cleaner returns rows in the order of the table: the rows
    returned come, one for one and in order, from a sub-sequence of the
    rows of the table, each the conversion of its row with the line total
    added; no row is made up and none is returned twice. *)
Theorem clean_transactions_keeps_order df out :
  clean df = Ok out ->
  exists kept,
    sublist kept (rows df)
    /\ Forall2 (fun r t => exists t0, convert r = Ok t0 /\ t = with_total t0) kept out.
Proof.
  intros (tx & Hconv & ->)%clean_Ok_inv.
  set (keep := fun t => not_cancelled t && positive_values t && no_nulls t).
  assert (Hf : forall l, List.filter no_nulls
                 (List.filter positive_values (List.filter not_cancelled l))
               = List.filter keep l).
  { intros l. induction l as [|t l IH]; simpl; [done|]. unfold keep at 1.
    destruct (not_cancelled t); simpl; [|done].
    destruct (positive_values t); simpl; [|done].
    destruct (no_nulls t); simpl; by rewrite IH. }
  rewrite Hf. clear Hf.
  induction Hconv as [|r t rs ts Hr Hrs (kept & Hsub & Hall)]; simpl.
  - exists []. split; constructor.
  - destruct (keep t).
    + exists (r :: kept). split; [by constructor|]. simpl. constructor; [by exists t|done].
    + exists kept. split; [by constructor|done].
Qed.

End Cleaner_more.


Lemma clean_transactions_keeps_order_witness :
  Sample.clean Sample.orders = Ok Sample.cleaned_orders
  /\ exists kept,
       sublist kept (rows Sample.orders)
       /\ Forall2 (fun r t =>
                     exists t0,
                       convert_row Sample.astype_str Sample.to_numeric Sample.to_datetime r
                       = Ok t0 /\ t = with_total t0) kept Sample.cleaned_orders.
Proof.
  split; [vm_compute; reflexivity|].
  apply (clean_transactions_keeps_order Sample.astype_str Sample.to_numeric Sample.to_datetime
           Sample.orders).
  vm_compute; reflexivity.
Defined.

(** A customer id of 7.5 is refused, whatever else the row holds. *)
Example clean_transactions_half_id :
  Sample.clean
    (Sample.table [Sample.raw (CStr "1002") "Mug" (CNum 3) (CNum 10) 2 (CNum (15 # 2))
                     (CStr "Ann") (CStr "ann@x.org")])
  = Raise unsafe_cast.
Proof. vm_compute; reflexivity. Qed.

(** ** Aggregator of the script: money, recency, contact, row count *)

Lemma sum_positive (l : list (option Q)) :
  Forall (fun x => exists q, x = Some q /\ (0 < q)%Q) l -> l <> [] -> (0 < Pd.sum l)%Q.
Proof.
  induction 1 as [|x l (q & -> & Hq) Hl IH]; [done|]. intros _. simpl.
  destruct l as [|y l]; [simpl; lra|].
  assert (0 < Pd.sum (y :: l))%Q by by apply IH. lra.
Qed.

Lemma cli_feature_monetary df f :
  f ∈ (merge_features
         (by_customer (fun g => Pd.max (map InvoiceDate g)) df)
         (days_since (Pd.add_day (Pd.max (map InvoiceDate df)))
            (by_customer (fun g => Pd.max (map InvoiceDate g)) df))
         (days_since (Pd.add_day (Pd.max (map InvoiceDate df)))
            (by_customer (fun g => Pd.max (map InvoiceDate g)) df))
         (by_customer (fun g => Pd.nunique (map InvoiceNo g)) df)
         (by_customer (fun g => Pd.sum (map TotalPrice g)) df)
         (by_customer (fun g => Pd.sum (map TotalPrice g)) df)
         (first_description (Pd.sort_values by_customer_qty_rev (product_totals df)))
         (name_email (Pd.tail1 CustomerID (Pd.sort_values by_date df)))) ->
  Feature.Monetary f = Some (Pd.sum (map TotalPrice (rows_of (Feature.CustomerID f) df)))
  /\ Feature.Total_Spent f = Feature.Monetary f.
Proof.
  intros Hf. destruct (cli_feature_customer df f Hf) as (t & Ht & Hc).
  apply elem_of_merge_features in Hf as (_ & _ & _ & Hts & _ & _ & _ & Hmo).
  rewrite Hts, Hmo. unfold by_customer.
  by rewrite (lookup_groupby CustomerID _ df); [|by exists t].
Qed.


(** X9.  On a cleaned table every feature row of the script has a
    recency of at least one day, and exactly one day for a customer who
    bought at the latest invoice date of the table. *)
Theorem derive_customer_features_recency_positive (df : list Transaction) features snapshot_date :
  Forall cleaned df ->
  Cli.derive_customer_features df = Ok (features, snapshot_date) ->
  Forall (fun f =>
            exists n, Feature.Recency f = Some n /\ 1 <= n
                      /\ (forall M, latest_date M df ->
                          latest_date M (rows_of (Feature.CustomerID f) df) -> n = 1))
         features.
Proof.
  intros Hclean. rewrite cli_derive_unfold. intros [= <- _].
  rewrite Forall_forall in Hclean. apply Forall_forall. intros f Hf.
  destruct (cli_feature_customer df f Hf) as (t & Ht & Hc).
  destruct (Hclean t Ht) as (_ & _ & _ & _ & [d Hd] & _).
  destruct (max_is_Some df t d Ht Hd) as [M HM].
  assert (Ht' : t ∈ rows_of (Feature.CustomerID f) df) by by apply elem_of_rows_of.
  destruct (max_is_Some _ t d Ht' Hd) as [L HL].
  destruct (cli_feature_recency df f Hf) as (Hrc & _ & _).
  rewrite HM, HL in Hrc. simpl in Hrc.
  pose proof (proj1 (max_latest_date _ _) HM) as [_ HMle].
  pose proof (proj1 (max_latest_date _ _) HL) as [(tl & [Htl _]%elem_of_rows_of & HtlL) HLle].
  assert (HLM : L <= M) by by apply (HMle tl).
  assert (Hday : 0 < Pd.one_day) by (by vm_compute).
  exists ((M + Pd.one_day - L) / Pd.one_day). split; [done|]. split.
  - replace (M + Pd.one_day - L) with ((M - L) + 1 * Pd.one_day) by lia.
    rewrite Z.div_add by lia. assert (0 <= (M - L) / Pd.one_day) by (apply Z.div_pos; lia). lia.
  - intros M' [(tm & Htm & HtmM) HM'le] [(tc & Htc & HtcM) HL'le].
    assert (M' = M).
    { apply Z.le_antisymm; [by apply (HMle tm)|].
      destruct (proj1 (max_latest_date _ _) HM) as [(tM & HtM & HtMd) _]. by apply (HM'le tM). }
    assert (L = M).
    { apply Z.le_antisymm; [done|]. subst M'. by apply (HLle tc). }
    subst. replace (M + Pd.one_day - M) with (1 * Pd.one_day) by lia.
    by rewrite Z.div_mul by lia.
Qed.

Lemma by_date_total (a b : Transaction) : by_date a b = true \/ by_date b a = true.
Proof.
  unfold by_date. destruct (InvoiceDate a), (InvoiceDate b); auto.
  rewrite !Z.leb_le. lia.
Qed.

Lemma by_date_trans (a b c : Transaction) :
  by_date a b = true -> by_date b c = true -> by_date a c = true.
Proof.
  unfold by_date. destruct (InvoiceDate a), (InvoiceDate b), (InvoiceDate c); try done.
  rewrite !Z.leb_le. lia.
Qed.

(** [id_name] holds, for every customer, the name and email of the last
    of the customer's rows in the list [tail(1)] is taken from. *)
Lemma lookup_name_email_tail1 (l : list Transaction) (c : Z) :
  Pd.lookup_index c (name_email (Pd.tail1 CustomerID l))
  = (fun t => (Name t, Email t))
      <$> last (List.filter (fun t => bool_decide (CustomerID t = Some c)) l).
Proof.
  unfold Pd.lookup_index. induction l as [|r l IH]; simpl; [by rewrite lookup_empty|].
  destruct (CustomerID r) as [k|] eqn:Hk.
  - destruct (existsb _ l) eqn:Hex.
    + rewrite IH. case_bool_decide as Hkc; [|done]. simplify_eq.
      apply existsb_exists in Hex as (r' & Hr' & Hk').
      destruct (List.filter _ l) as [|x xs] eqn:Hf; [|done].
      exfalso. assert (Hin : In r' (List.filter (fun t => bool_decide (CustomerID t = Some c)) l))
        by by apply filter_In.
      by rewrite Hf in Hin.
    + unfold name_email. simpl. rewrite Hk. simpl.
      case_bool_decide as Hkc.
      * simplify_eq. rewrite lookup_insert_eq.
        destruct (List.filter _ l) as [|x xs] eqn:Hf; [done|].
        exfalso. assert (Hin : In x (List.filter (fun t => bool_decide (CustomerID t = Some c)) l))
          by (rewrite Hf; by left).
        apply filter_In in Hin as [Hin Hx].
        assert (existsb (fun r' => bool_decide (CustomerID r' = Some c)) l = true)
          by (apply existsb_exists; by exists x).
        congruence.
      * rewrite lookup_insert_ne by congruence. exact IH.
  - rewrite IH. by rewrite bool_decide_false.
Qed.

Lemma last_filter_split {A} (p : A -> bool) (l : list A) x :
  last (List.filter p l) = Some x ->
  exists l1 l2, l = (l1 ++ x :: l2)%list /\ p x = true /\ Forall (fun y => p y = false) l2.
Proof.
  induction l as [|a l IH]; simpl; [done|].
  destruct (p a) eqn:Hpa.
  - destruct (List.filter p l) as [|y ys] eqn:Hf.
    + intros [= <-]. exists [], l. split; [done|]. split; [done|].
      apply Forall_forall. intros y Hy%list_elem_of_In.
      destruct (p y) eqn:Hpy; [|done].
      assert (Hin : In y (List.filter p l)) by by apply filter_In. by rewrite Hf in Hin.
    + rewrite last_cons_cons. intros Hl. destruct (IH Hl) as (l1 & l2 & -> & ? & ?).
      by exists (a :: l1), l2.
  - intros Hl. destruct (IH Hl) as (l1 & l2 & -> & ? & ?). by exists (a :: l1), l2.
Qed.

(** X10.  On a cleaned table the name and the email of every feature row
    of the script are those of one of the customer's own rows, a row dated
    at the customer's latest invoice date; the email is therefore not a
    missing value. *)
Theorem derive_customer_features_contact (df : list Transaction) features snapshot_date :
  Forall cleaned df ->
  Cli.derive_customer_features df = Ok (features, snapshot_date) ->
  Forall (fun f =>
            exists t L,
              t ∈ rows_of (Feature.CustomerID f) df
              /\ latest_date L (rows_of (Feature.CustomerID f) df)
              /\ InvoiceDate t = Some L
              /\ Feature.Name f = Name t
              /\ Feature.Email f = Email t
              /\ Pd.isna (Feature.Email f) = false)
         features.
Proof.
  intros Hclean. rewrite cli_derive_unfold. intros [= <- _].
  rewrite Forall_forall in Hclean. apply Forall_forall. intros f Hf.
  destruct (cli_feature_customer df f Hf) as (t0 & Ht0 & Hc0).
  set (c := Feature.CustomerID f) in *.
  assert (Hrow : Feature.Name f
                 = from_option fst CNaN
                     (Pd.lookup_index c (name_email (Pd.tail1 CustomerID (Pd.sort_values by_date df))))
                 /\ Feature.Email f
                    = from_option snd CNaN
                        (Pd.lookup_index c (name_email (Pd.tail1 CustomerID (Pd.sort_values by_date df))))).
  { unfold merge_features in Hf. apply elem_of_sort_values in Hf.
    apply list_elem_of_fmap in Hf as (k & -> & _). done. }
  destruct Hrow as [Hname Hemail]. rewrite lookup_name_email_tail1 in Hname, Hemail.
  set (S := Pd.sort_values by_date df) in *.
  destruct (last (List.filter (fun t => bool_decide (CustomerID t = Some c)) S)) as [t|] eqn:Hlast.
  - destruct (last_filter_split _ _ _ Hlast) as (l1 & l2 & HS & Hct & Hl2).
    apply bool_decide_eq_true in Hct.
    assert (HtS : t ∈ S) by (rewrite HS; apply elem_of_app; right; by left).
    assert (Htdf : t ∈ df) by exact (proj1 (elem_of_sort_values by_date t df) HtS).
    destruct (Hclean t Htdf) as (_ & _ & _ & _ & [L HL] & Hmail).
    exists t, L. simpl in Hname, Hemail. rewrite Hname, Hemail.
    split; [by apply elem_of_rows_of|]. split; [|done].
    split; [exists t; split; [by apply elem_of_rows_of|done]|].
    intros t' d [Ht' Hc']%elem_of_rows_of Hd'.
    apply (proj2 (elem_of_sort_values by_date t' df)) in Ht'. fold S in Ht'. rewrite HS in Ht'.
    pose proof (sort_values_sorted by_date by_date_total by_date_trans df) as Hsorted.
    fold S in Hsorted. rewrite HS in Hsorted.
    apply elem_of_app in Ht' as [Ht'|Ht'].
    + pose proof (StronglySorted_app_1_elem_of _ _ _ t' t Hsorted Ht') as Hle.
      simpl in Hle. specialize (Hle ltac:(by left)).
      unfold by_date in Hle. rewrite Hd', HL in Hle. by apply Z.leb_le.
    + apply elem_of_cons in Ht' as [->|Ht']; [simplify_eq; lia|].
      rewrite Forall_forall in Hl2. specialize (Hl2 t' Ht').
      by rewrite bool_decide_true in Hl2.
  - exfalso.
    assert (Hin : In t0 (List.filter (fun t => bool_decide (CustomerID t = Some c)) S)).
    { apply filter_In. split; [|by apply bool_decide_eq_true].
      apply list_elem_of_In. by apply elem_of_sort_values. }
    apply last_None in Hlast. by rewrite Hlast in Hin.
Qed.

Lemma max_None (l : list (option Z)) : Pd.max l = None <-> Forall (fun x => x = None) l.
Proof.
  induction l as [|x l IH]; simpl; [by split; [constructor|]|].
  destruct x as [a|].
  - split; [by destruct (Pd.max l)|]. by inversion 1.
  - rewrite IH. split; [by constructor|by inversion 1].
Qed.

Lemma cli_features_length (df : list Transaction) features snapshot_date :
  Cli.derive_customer_features df = Ok (features, snapshot_date) ->
  length features = size (list_to_set (omap CustomerID df) : gset Z).
Proof.
  rewrite cli_derive_unfold. intros [= <- _].
  unfold merge_features. rewrite sort_values_perm, length_fmap.
  set (index := Pd.concat_index _).
  rewrite <- (size_list_to_set (C:=gset Z) index) by apply NoDup_unique.
  f_equal. apply set_eq. intros k.
  rewrite !elem_of_list_to_set, list_elem_of_omap. apply cli_index.
Qed.

(** X11.  The script's aggregator returns one row per distinct customer
    id of the table, and its snapshot date is missing exactly when no row
    has an invoice date; given an empty table it returns no rows and a
    missing date rather than raising. *)
Theorem derive_customer_features_row_count (df : list Transaction) features snapshot_date :
  Cli.derive_customer_features df = Ok (features, snapshot_date) ->
  length features = size (list_to_set (omap CustomerID df) : gset Z)
  /\ (snapshot_date = None <-> Forall (fun t => InvoiceDate t = None) df)
  /\ (df = [] -> features = [] /\ snapshot_date = None).
Proof.
  intros Hderive. split; [by apply (cli_features_length df features snapshot_date)|].
  revert Hderive. rewrite cli_derive_unfold. intros [= <- <-]. split.
  - unfold Pd.add_day. rewrite fmap_None, max_None, Forall_fmap. done.
  - intros ->. done.
Qed.


Lemma derive_customer_features_recency_positive_witness :
  (Forall cleaned Sample.cleaned_orders
   /\ Cli.derive_customer_features Sample.cleaned_orders
      = Ok ([Sample.ann; Sample.nine], Some (6 * Pd.one_day)))
  /\ Forall (fun f =>
              exists n, Feature.Recency f = Some n /\ 1 <= n
                        /\ (forall M, latest_date M Sample.cleaned_orders ->
                            latest_date M (rows_of (Feature.CustomerID f) Sample.cleaned_orders) ->
                            n = 1))
       [Sample.ann; Sample.nine].
Proof.
  split; [split; [exact sample_orders_cleaned|vm_compute; reflexivity]|].
  apply (derive_customer_features_recency_positive Sample.cleaned_orders
           [Sample.ann; Sample.nine] (Some (6 * Pd.one_day)) sample_orders_cleaned).
  vm_compute; reflexivity.
Defined.

Lemma derive_customer_features_contact_witness :
  (Forall cleaned Sample.cleaned_orders
   /\ Cli.derive_customer_features Sample.cleaned_orders
      = Ok ([Sample.ann; Sample.nine], Some (6 * Pd.one_day)))
  /\ Forall (fun f =>
              exists t L,
                t ∈ rows_of (Feature.CustomerID f) Sample.cleaned_orders
                /\ latest_date L (rows_of (Feature.CustomerID f) Sample.cleaned_orders)
                /\ InvoiceDate t = Some L
                /\ Feature.Name f = Name t
                /\ Feature.Email f = Email t
                /\ Pd.isna (Feature.Email f) = false)
       [Sample.ann; Sample.nine].
Proof.
  split; [split; [exact sample_orders_cleaned|vm_compute; reflexivity]|].
  apply (derive_customer_features_contact Sample.cleaned_orders
           [Sample.ann; Sample.nine] (Some (6 * Pd.one_day)) sample_orders_cleaned).
  vm_compute; reflexivity.
Defined.

Lemma derive_customer_features_row_count_witness :
  Cli.derive_customer_features Sample.cleaned_orders
  = Ok ([Sample.ann; Sample.nine], Some (6 * Pd.one_day))
  /\ (length [Sample.ann; Sample.nine]
      = size (list_to_set (omap CustomerID Sample.cleaned_orders) : gset Z)
      /\ (Some (6 * Pd.one_day) = None
          <-> Forall (fun t => InvoiceDate t = None) Sample.cleaned_orders)
      /\ (Sample.cleaned_orders = [] ->
          [Sample.ann; Sample.nine] = [] /\ Some (6 * Pd.one_day) = None)).
Proof.
  split; [vm_compute; reflexivity|].
  apply (derive_customer_features_row_count Sample.cleaned_orders
           [Sample.ann; Sample.nine] (Some (6 * Pd.one_day))).
  vm_compute; reflexivity.
Defined.

(** ** Dispatch loop: no cap, a cap of zero, a negative cap *)

Section Dispatch_more.

Context {W : Type}.
Variable send_email_gmail : Mail -> W -> W * bool.
Variable recipient : Cell -> Result (option string).
Variable generate_email : Cell -> string -> Cell -> Cell -> Result (string * string).

Local Abbreviation loop := (send_loop send_email_gmail recipient generate_email).
Local Abbreviation mail := (mail_of recipient generate_email).

(** The loop consults the cap only through [limit_reached], after a
    delivery. *)
Lemma send_loop_same_breaks (l1 l2 : option Z) rows :
  (forall s, limit_reached l1 (S s) = limit_reached l2 (S s)) ->
  forall w sent0 log, loop l1 rows w sent0 log = loop l2 rows w sent0 log.
Proof.
  intros Heq. induction rows as [|r rest IH]; intros w sent0 log; simpl; [done|].
  destruct (recipient (MailRow.Email r)) as [[email|]|e]; [|by apply IH|done].
  destruct (generate_email _ _ _ _) as [[subject body]|e]; [|done].
  destruct (send_email_gmail _ w) as [w' [|]]; [|by apply IH].
  rewrite Heq. destruct (limit_reached l2 (S sent0)); [done|by apply IH].
Qed.

Lemma send_loop_uncapped (limit : option Z) rows :
  (forall s, limit_reached limit s = false) ->
  forall w sent0 log,
  exists (k : nat) log',
    (k <= length rows)%nat
    /\ attempts (loop limit rows w sent0 log) = (log ++ log')%list
    /\ log'.*1 = omap mail (take k rows)
    /\ sent (loop limit rows w sent0 log) = (sent0 + length (List.filter snd log'))%nat
    /\ match exit (loop limit rows w sent0 log) with
       | Break => False
       | Exhausted => k = length rows
       | Raised e =>
           exists r, rows !! k = Some r
                     /\ (recipient (MailRow.Email r) = Raise e
                         \/ generate_email (MailRow.Name r) (MailRow.Segment r)
                              (MailRow.Last_Purchase_Days_Ago r) (MailRow.Fav_Category r) = Raise e)
       end.
Proof.
  intros Hnever. induction rows as [|r rest IH]; intros w sent0 log.
  - exists 0%nat, []. simpl. rewrite app_nil_r. repeat split; auto with lia.
  - simpl.
    destruct (recipient (MailRow.Email r)) as [[email|]|e] eqn:Hrec.
    + destruct (generate_email _ _ _ _) as [[subject body]|e] eqn:Hgen.
      * set (m := {| to_email := email; subject := subject; body := body |}).
        assert (Hmail : mail r = Some m) by (unfold mail_of; by rewrite Hrec, Hgen).
        destruct (send_email_gmail m w) as [w' delivered] eqn:Hsend.
        assert (Hstep : (if delivered
                         then if limit_reached limit (S sent0)
                              then {| sink := w'; sent := S sent0;
                                      attempts := (log ++ [(m, true)])%list; exit := Break |}
                              else loop limit rest w' (S sent0) (log ++ [(m, true)])%list
                         else loop limit rest w' sent0 (log ++ [(m, false)])%list)
                        = loop limit rest w' (if delivered then S sent0 else sent0)
                            (log ++ [(m, delivered)])%list).
        { destruct delivered; [by rewrite Hnever|done]. }
        rewrite Hstep.
        destruct (IH w' (if delivered then S sent0 else sent0) (log ++ [(m, delivered)])%list)
          as (k & log' & Hk & Hat & Hm & Hs & Hex).
        exists (S k), ((m, delivered) :: log').
        rewrite firstn_cons, (omap_mail_cons recipient generate_email), Hmail, fmap_cons, Hm,
          Hat, <- app_assoc, Hs.
        cbn [length List.filter snd app].
        split; [lia|]. split; [reflexivity|]. split; [reflexivity|].
        split; [destruct delivered; simpl; lia|].
        destruct (exit _) as [| |e]; [by f_equal|done|].
        destruct Hex as (r0 & Hr0 & Hraise). by exists r0.
      * exists 0%nat, []. simpl. rewrite app_nil_r. repeat split; auto with lia.
        exists r. auto.
    + assert (Hmail : mail r = None) by (unfold mail_of; by rewrite Hrec).
      destruct (IH w sent0 log) as (k & log' & Hk & Hat & Hm & Hs & Hex).
      exists (S k), log'.
      rewrite firstn_cons, (omap_mail_cons recipient generate_email), Hmail.
      cbn [length]. split; [lia|]. repeat split; try done.
      destruct (exit _) as [| |e]; [by f_equal|done|].
      destruct Hex as (r0 & Hr0 & Hraise). by exists r0.
    + exists 0%nat, []. simpl. rewrite app_nil_r. repeat split; auto with lia.
      exists r. auto.
Qed.

Lemma dispatch_runs_uncapped (limit : option Z) rows w :
  limit = None \/ limit = Some 0 ->
  runs_uncapped recipient generate_email rows
    (dispatch send_email_gmail recipient generate_email limit rows w).
Proof.
  intros Hlimit. unfold dispatch, runs_uncapped.
  destruct (send_loop_uncapped limit rows) with (w := w) (sent0 := 0%nat) (log := @nil (Mail * bool))
    as (k & log' & Hk & Hat & Hm & Hs & Hex).
  { intros s. by destruct Hlimit as [-> | ->]. }
  simpl in Hat, Hs. exists k. rewrite Hat. repeat split; auto.
Qed.

Lemma dispatch_negative_cap (n : Z) rows w :
  n < 0 ->
  dispatch send_email_gmail recipient generate_email (Some n) rows w
  = dispatch send_email_gmail recipient generate_email (Some 1) rows w.
Proof.
  intros Hn. unfold dispatch. apply send_loop_same_breaks.
  intros s. unfold limit_reached.
  destruct (Z.eqb_spec n 0); [lia|]. simpl.
  destruct (Z.leb_spec n (Z.of_nat (S s))), (Z.leb_spec 1 (Z.of_nat (S s))); try done; lia.
Qed.

End Dispatch_more.

(** X12.  Without a cap, and with a cap of 0 alike, either loop is never
    left by [break]: it hands the mail of every row with a usable address
    to the sink, in row order, counting the deliveries that returned,
    unless an exception leaves it at the row that raised. *)
Theorem send_emails_without_cap {W : Type} (send_email_gmail : Mail -> W -> W * bool)
    (str_num : Q -> string) (limit : option Z) (rows : list MailRow.t) (w : W) :
  limit = None \/ limit = Some 0 ->
  runs_uncapped App.recipient App.generate_email rows
    (App.send_emails send_email_gmail limit rows w)
  /\ runs_uncapped (Cli.recipient str_num) (Cli.generate_email str_num) rows
       (Cli.send_emails str_num send_email_gmail limit rows w).
Proof. intros Hlimit. split; by apply dispatch_runs_uncapped. Qed.

Lemma send_emails_without_cap_witness :
  (Some 0 = None \/ Some 0 = Some 0)
  /\ (runs_uncapped App.recipient App.generate_email
        [Sample.no_address_row; Sample.ann_row; Sample.bob_row]
        (App.send_emails Sample.outbox (Some 0)
           [Sample.no_address_row; Sample.ann_row; Sample.bob_row] [])
      /\ runs_uncapped (Cli.recipient Sample.str_num) (Cli.generate_email Sample.str_num)
           [Sample.no_address_row; Sample.ann_row; Sample.bob_row]
           (Cli.send_emails Sample.str_num Sample.outbox (Some 0)
              [Sample.no_address_row; Sample.ann_row; Sample.bob_row] [])).
Proof.
  split; [by right|].
  apply (send_emails_without_cap Sample.outbox Sample.str_num (Some 0)
           [Sample.no_address_row; Sample.ann_row; Sample.bob_row] []).
  by right.
Defined.

(** X13.  A negative cap acts as a cap of one: either loop does with it
    exactly what it does with the cap 1, and so stops at the first
    delivery that returns. *)
Theorem send_emails_negative_cap {W : Type} (send_email_gmail : Mail -> W -> W * bool)
    (str_num : Q -> string) (n : Z) (rows : list MailRow.t) (w : W) :
  n < 0 ->
  App.send_emails send_email_gmail (Some n) rows w
  = App.send_emails send_email_gmail (Some 1) rows w
  /\ Cli.send_emails str_num send_email_gmail (Some n) rows w
     = Cli.send_emails str_num send_email_gmail (Some 1) rows w.
Proof. intros Hn. split; by apply dispatch_negative_cap. Qed.

Lemma send_emails_negative_cap_witness :
  -3 < 0
  /\ (App.send_emails Sample.outbox (Some (-3)) [Sample.ann_row; Sample.bob_row] []
      = App.send_emails Sample.outbox (Some 1) [Sample.ann_row; Sample.bob_row] []
      /\ Cli.send_emails Sample.str_num Sample.outbox (Some (-3)) [Sample.ann_row; Sample.bob_row] []
         = Cli.send_emails Sample.str_num Sample.outbox (Some 1)
             [Sample.ann_row; Sample.bob_row] []).
Proof.
  split; [lia|].
  apply (send_emails_negative_cap Sample.outbox Sample.str_num (-3)
           [Sample.ann_row; Sample.bob_row] []).
  lia.
Defined.

(** ** Message composers: when the service's raises, where the two agree *)

Lemma strip_method_or_raises (c : Cell) (d : string) :
  raises (Py.strip_method (Py.or_ c (CStr d))) <-> truthy_non_string c.
Proof.
  unfold Py.or_, truthy_non_string, raises. destruct c as [| |s|q]; simpl.
  - split; [by intros [e ?]|by intros [? _]].
  - split; [done|by eexists].
  - destruct (negb (s =? "")%string); simpl;
      (split; [by intros [e ?]|intros [_ H]; by destruct (H s)]).
  - destruct (negb (Qeq_bool q 0)); simpl.
    + split; [done|by eexists].
    + split; [by intros [e ?]|by intros [? _]].
Qed.

Lemma int_of_int (d : Z) : Py.int (CNum (inject_Z d)) = Ok d.
Proof. simpl. by rewrite Z.quot_1_r. Qed.

(** [int(days) if pd.notna(days) else "many"], then [int] of it. *)
Lemma app_days {A} (days : Cell) (k : Z -> Result A) :
  (days ← (if Pd.notna days
           then (fun d => CNum (inject_Z d)) <$> Py.int days
           else mret (CStr "many"));
   days ← Py.int days;
   k days)
  = if Pd.isna days
    then Raise (ValueError "invalid literal for int() with base 10: 'many'")
    else Py.int days ≫= k.
Proof.
  unfold Pd.notna. destruct (Pd.isna days); simpl negb; cbv iota.
  - by rewrite bind_Ok, int_many.
  - destruct (Py.int days) as [d|e]; [|done].
    change ((fun d => CNum (inject_Z d)) <$> Ok d) with (Ok (CNum (inject_Z d))).
    by rewrite bind_Ok, int_of_int.
Qed.

(** X14.  The composer of the service raises exactly when the name or the
    favorite category is a truthy object other than a string (it has no
    [strip]), or the segment is neither of the first two templates and
    the days value does not convert with [int]. *)
Theorem app_generate_email_raises (name : Cell) (segment : string) (days fav : Cell) :
  raises (App.generate_email name segment days fav) <->
  truthy_non_string name \/ truthy_non_string fav
  \/ (segment <> "VIP Customers" /\ segment <> "Regular Customers" /\ raises (Py.int days)).
Proof.
  unfold App.generate_email.
  rewrite <- (strip_method_or_raises name "there"),
    <- (strip_method_or_raises fav "Your favourites").
  destruct (Py.strip_method (Py.or_ name _)) as [n|e] eqn:Hn.
  2: { split; intros _; [left|]; by exists e. }
  rewrite bind_Ok.
  destruct (Py.strip_method (Py.or_ fav _)) as [f|e] eqn:Hf.
  2: { split; intros _; [right; left|]; by exists e. }
  rewrite bind_Ok.
  destruct (String.eqb_spec segment "VIP Customers") as [->|Hvip].
  { split; [by intros [e ?]|]. intros [[e ?]|[[e ?]|(? & _)]]; done. }
  destruct (String.eqb_spec segment "Regular Customers") as [->|Hreg].
  { split; [by intros [e ?]|]. intros [[e ?]|[[e ?]|(_ & ? & _)]]; done. }
  rewrite app_days. destruct (Pd.isna days) eqn:Hna.
  - split; intros _; [|by eexists]. right; right. auto using int_missing.
  - destruct (Py.int days) as [d|e] eqn:Hd.
    + rewrite bind_Ok. split; [by intros [e ?]|].
      intros [[e ?]|[[e ?]|(_ & _ & [e ?])]]; done.
    + split; intros _; [|by exists e]. right; right. repeat split; auto. by exists e.
Qed.

(** X15.  On a name and a favorite category that are strings without
    surrounding blanks, the category not empty, with a days value that is
    present (or a segment that does not use it), the two composers return
    the same message, or raise the same exception. *)
Theorem generate_email_agree (str_num : Q -> string) (name fav segment : string) (days : Cell) :
  Py.strip name = name -> Py.strip fav = fav -> fav <> "" ->
  Pd.isna days = false \/ segment = "VIP Customers" \/ segment = "Regular Customers" ->
  App.generate_email (CStr name) segment days (CStr fav)
  = Cli.generate_email str_num (CStr name) segment days (CStr fav).
Proof.
  intros Hname Hfav Hne Hdays. unfold App.generate_email, Cli.generate_email.
  assert (Hn : Py.strip_method (Py.or_ (CStr name) (CStr "there"))
               = Ok (if (name =? "")%string then "there" else name)).
  { unfold Py.or_. simpl. destruct (String.eqb_spec name ""); simpl; [done|]. by rewrite Hname. }
  assert (Hf : Py.strip_method (Py.or_ (CStr fav) (CStr "Your favourites")) = Ok fav).
  { unfold Py.or_. simpl. destruct (String.eqb_spec fav ""); simpl; [done|]. by rewrite Hfav. }
  rewrite Hn, bind_Ok, Hf, bind_Ok. simpl Pd.isna. simpl Cli.py_str. rewrite Hname, Hfav.
  cbn [orb].
  assert (Hn' : str_or (if (name =? "")%string then "there" else name) "there"
                = if (name =? "")%string then "there" else name).
  { unfold str_or. destruct (String.eqb_spec name "") as [->|Hn0]; [done|].
    by destruct (String.eqb_spec name ""). }
  assert (Hf' : str_or fav "your favorites" = fav).
  { unfold str_or. by destruct (String.eqb_spec fav ""). }
  rewrite Hn', Hf'. destruct (String.eqb_spec fav "") as [|_]; [done|].
  destruct (String.eqb segment "VIP Customers") eqn:Hvip; [done|].
  destruct (String.eqb segment "Regular Customers") eqn:Hreg; [done|].
  destruct Hdays as [Hna|[->| ->]]; [|done|done].
  by rewrite app_days, Hna.
Qed.

Lemma generate_email_agree_witness :
  (Py.strip "Ann" = "Ann" /\ Py.strip "Mugs" = "Mugs" /\ "Mugs" <> ""
   /\ (Pd.isna (CNum 12) = false \/ "At-Risk Customers" = "VIP Customers"
       \/ "At-Risk Customers" = "Regular Customers"))
  /\ App.generate_email (CStr "Ann") "At-Risk Customers" (CNum 12) (CStr "Mugs")
     = Cli.generate_email Sample.str_num (CStr "Ann") "At-Risk Customers" (CNum 12) (CStr "Mugs").
Proof.
  split; [repeat split; try done; by left|].
  apply (generate_email_agree Sample.str_num "Ann" "Mugs" "At-Risk Customers" (CNum 12));
    [reflexivity | reflexivity | discriminate | by left].
Defined.

(** ** Dispatch loop, whatever the cap: who is mailed *)

Section Dispatch_any.

Context {W : Type}.
Variable send_email_gmail : Mail -> W -> W * bool.
Variable recipient : Cell -> Result (option string).
Variable generate_email : Cell -> string -> Cell -> Cell -> Result (string * string).
Variable limit : option Z.

Local Abbreviation loop := (send_loop send_email_gmail recipient generate_email limit).
Local Abbreviation mail := (mail_of recipient generate_email).

Lemma send_loop_attempts rows : forall w sent0 log,
  exists (k : nat) log',
    attempts (loop rows w sent0 log) = (log ++ log')%list
    /\ log'.*1 = omap mail (take k rows).
Proof.
  induction rows as [|r rest IH]; intros w sent0 log.
  - exists 0%nat, []. simpl. by rewrite app_nil_r.
  - simpl.
    destruct (recipient (MailRow.Email r)) as [[email|]|e] eqn:Hrec.
    + destruct (generate_email _ _ _ _) as [[subject body]|e] eqn:Hgen.
      * set (m := {| to_email := email; subject := subject; body := body |}).
        assert (Hmail : mail r = Some m) by (unfold mail_of; by rewrite Hrec, Hgen).
        destruct (send_email_gmail m w) as [w' [|]] eqn:Hsend.
        -- destruct (limit_reached limit (S sent0)).
           ++ exists 1%nat, [(m, true)]. simpl. by rewrite Hmail.
           ++ destruct (IH w' (S sent0) (log ++ [(m, true)])%list) as (k & log' & Hat & Hm).
              exists (S k), ((m, true) :: log').
              by rewrite firstn_cons, (omap_mail_cons recipient generate_email), Hmail,
                fmap_cons, Hm, Hat, <- app_assoc.
        -- destruct (IH w' sent0 (log ++ [(m, false)])%list) as (k & log' & Hat & Hm).
           exists (S k), ((m, false) :: log').
           by rewrite firstn_cons, (omap_mail_cons recipient generate_email), Hmail,
             fmap_cons, Hm, Hat, <- app_assoc.
      * exists 0%nat, []. simpl. by rewrite app_nil_r.
    + assert (Hmail : mail r = None) by (unfold mail_of; by rewrite Hrec).
      destruct (IH w sent0 log) as (k & log' & Hat & Hm).
      exists (S k), log'.
      by rewrite firstn_cons, (omap_mail_cons recipient generate_email), Hmail.
    + exists 0%nat, []. simpl. by rewrite app_nil_r.
Qed.

(** An exception leaves the loop only from the guard or the composer. *)
Lemma send_loop_raised rows : forall w sent0 log e,
  exit (loop rows w sent0 log) = Raised e ->
  exists r, r ∈ rows
            /\ (recipient (MailRow.Email r) = Raise e
                \/ generate_email (MailRow.Name r) (MailRow.Segment r)
                     (MailRow.Last_Purchase_Days_Ago r) (MailRow.Fav_Category r) = Raise e).
Proof.
  induction rows as [|r rest IH]; intros w sent0 log e; simpl; [done|].
  destruct (recipient (MailRow.Email r)) as [[email|]|e'] eqn:Hrec.
  - destruct (generate_email _ _ _ _) as [[subject body]|e'] eqn:Hgen.
    + destruct (send_email_gmail _ w) as [w' [|]].
      * destruct (limit_reached limit (S sent0)); [done|].
        intros (r' & Hr' & H)%IH. exists r'. split; [by right|done].
      * intros (r' & Hr' & H)%IH. exists r'. split; [by right|done].
    + simpl. intros [= <-]. exists r. split; [by left|by right].
  - intros (r' & Hr' & H)%IH. exists r'. split; [by right|done].
  - simpl. intros [= <-]. exists r. split; [by left|by left].
Qed.

Lemma dispatch_mails rows w m :
  m ∈ (attempts (dispatch send_email_gmail recipient generate_email limit rows w)).*1 ->
  exists r, r ∈ rows /\ recipient (MailRow.Email r) = Ok (Some (to_email m)).
Proof.
  unfold dispatch. destruct (send_loop_attempts rows w 0%nat []) as (k & log' & -> & Hm).
  simpl. rewrite Hm. intros (r & Hr & Hmail)%list_elem_of_omap.
  exists r. split; [by apply (subseteq_take k rows)|].
  unfold mail_of in Hmail. destruct (recipient (MailRow.Email r)) as [[email|]|e]; try done.
  destruct (generate_email _ _ _ _) as [[subject body]|e]; [|done].
  by injection Hmail as <-.
Qed.

End Dispatch_any.

(** X16.  Whatever the cap, a mail is handed to the sink only for a row
    whose address passed the guard: in the service the [Email] of the row
    is that very string, in the script the address is [str(Email)]
    stripped; in both it contains an at sign. *)
Theorem send_emails_addresses {W : Type} (send_email_gmail : Mail -> W -> W * bool)
    (str_num : Q -> string) (limit : option Z) (rows : list MailRow.t) (w : W) :
  Forall (fun m => Py.contains "@" (to_email m) = true
                   /\ exists r, r ∈ rows /\ MailRow.Email r = CStr (to_email m))
         (attempts (App.send_emails send_email_gmail limit rows w)).*1
  /\ Forall (fun m => Py.contains "@" (to_email m) = true
                      /\ exists r, r ∈ rows
                                   /\ to_email m = Py.strip (Cli.py_str str_num (MailRow.Email r)))
            (attempts (Cli.send_emails str_num send_email_gmail limit rows w)).*1.
Proof.
  split; apply Forall_forall; intros m (r & Hr & Hrec)%dispatch_mails.
  - unfold App.recipient in Hrec.
    destruct (Py.truthy (MailRow.Email r)); simpl in Hrec; [|done].
    destruct (MailRow.Email r) as [| |s|q] eqn:He; try done.
    destruct (Py.contains "@" s) eqn:Hat; [|done].
    injection Hrec as <-. split; [done|]. by exists r.
  - unfold Cli.recipient in Hrec.
    destruct (negb _ && Py.contains "@" _) eqn:Hguard; [|done].
    injection Hrec as <-. apply andb_true_iff in Hguard as [_ Hat].
    split; [done|]. by exists r.
Qed.

(** ** The copy at the root: the column selection *)

Lemma merge_features_joined last_purchase days_ago recency frequency monetary total_spent
    fav id_name :
  merge_features last_purchase days_ago recency frequency monetary total_spent fav id_name
  = Pd.sort_values by_monetary_desc
      (joined_features last_purchase days_ago recency frequency monetary total_spent
         fav id_name).
Proof. reflexivity. Qed.

Lemma getitem_cols {A} (table : A) :
  Copy.getitem_columns Copy.joined_columns Copy.cols table
  = Failed (KeyError "['Fav_category'] not in index").
Proof. reflexivity. Qed.

(** X17.  The aggregator of the copy at the root never returns: whatever
    the table, the column selection asks for the label "Fav_category",
    which the joined table does not have, and leaves with a key error
    naming it. *)
Theorem copy_derive_customer_features_key_error (df : list Transaction) :
  Copy.derive_customer_features df = Failed (KeyError "['Fav_category'] not in index")
  /\ ("Fav_Category" ∈ Copy.joined_columns)
  /\ ("Fav_category" ∉ Copy.joined_columns)
  /\ (forall c, c ∈ Copy.cols -> c <> "Fav_category" -> c ∈ Copy.joined_columns).
Proof.
  split; [|split; [|split]].
  - unfold Copy.derive_customer_features. by rewrite getitem_cols.
  - by apply (bool_decide_unpack _).
  - by apply (bool_decide_unpack _).
  - intros c Hc Hne. unfold Copy.cols in Hc. unfold Copy.joined_columns.
    repeat (apply elem_of_cons in Hc as [->|Hc]; [try done; set_solver|]).
    by apply elem_of_nil in Hc.
Qed.

(** ** The upload handler of the service *)


(** The handler on an upload that reads as the sample table. *)
Example segment_customers_sample :
  segment_customers_features Sample.astype_str Sample.to_numeric Sample.to_datetime
    Sample.read_orders "orders"
  = Failed (Uncaught (AttributeError "'NoneType' object has no attribute 'groupby'")).
Proof. by vm_compute. Qed.

(** ** The entry point of the script *)

Lemma score_segments_features {Scaled : Type}
    (scaler_transform : list (option Z * option nat * option Q) -> Result (list Scaled))
    (kmeans_predict : list Scaled -> Result (list Z)) features out :
  score_segments Scaled scaler_transform kmeans_predict features = Ok out ->
  map Scored.features out = features.
Proof.
  intros (scaled & clusters & _ & _ & Hlen & ->)%score_segments_Ok.
  revert clusters Hlen.
  induction features as [|f fs IH]; intros [|c cs] Hlen; simplify_eq/=; f_equal; auto.
Qed.

Lemma cli_features_days_known (df : list Transaction) features snapshot_date :
  Forall cleaned df ->
  Cli.derive_customer_features df = Ok (features, snapshot_date) ->
  Forall (fun f => is_Some (Feature.Last_Purchase_Days_Ago f)) features.
Proof.
  intros Hclean. rewrite cli_derive_unfold. intros [= <- _].
  rewrite Forall_forall in Hclean. apply Forall_forall. intros f Hf.
  destruct (cli_feature_customer df f Hf) as (t & Ht & Hc).
  destruct (Hclean t Ht) as (_ & _ & _ & _ & [d Hd] & _).
  destruct (max_is_Some df t d Ht Hd) as [M HM].
  assert (Ht' : t ∈ rows_of (Feature.CustomerID f) df) by by apply elem_of_rows_of.
  destruct (max_is_Some _ t d Ht' Hd) as [L HL].
  destruct (cli_feature_recency df f Hf) as (Hrc & -> & _).
  rewrite Hrc, HM, HL. by eexists.
Qed.

Lemma cli_features_nonempty (df : list Transaction) features snapshot_date :
  Forall cleaned df -> df <> [] ->
  Cli.derive_customer_features df = Ok (features, snapshot_date) ->
  features <> [].
Proof.
  intros Hclean Hne. rewrite cli_derive_unfold. intros [= <- _].
  destruct df as [|t df]; [done|].
  apply Forall_cons in Hclean as [(_ & _ & _ & [c Hc] & _) _].
  destruct (cli_feature_of_customer (t :: df) t c) as (f & Hf & _); [by left|done|].
  intros Hnil. rewrite Hnil in Hf. by apply elem_of_nil in Hf.
Qed.

(** The script's composer on a row whose days value is a number. *)
Lemma cli_generate_email_number (str_num : Q -> string) (name : Cell) (segment : string)
    (q : Q) (fav : Cell) :
  exists subject body,
    Cli.generate_email str_num name segment (CNum q) fav = Ok (subject, body).
Proof.
  unfold Cli.generate_email.
  destruct (String.eqb segment "VIP Customers"); [by eexists _, _|].
  destruct (String.eqb segment "Regular Customers"); [by eexists _, _|].
  by eexists _, _.
Qed.

Section Main_facts.

Context {W Model Scaled : Type}.
Variable astype_str : Cell -> string.
Variable to_numeric : Cell -> option Q.
Variable to_datetime : Cell -> option Z.
Variable str_num : Q -> string.
Variable getenv : string -> option string.
Variable path_exists : string -> W -> bool.
Variable joblib_load : string -> W -> Outcome Model.
Variable transform : Model -> list (option Z * option nat * option Q) -> Result (list Scaled).
Variable predict : Model -> list Scaled -> Result (list Z).
Variable read_csv : string -> W -> Outcome DataFrame.
Variable to_csv : list Scored.t -> string -> W -> W * option Failure.
Variable send_email_gmail : Mail -> Cell -> Cell -> W -> W * bool.

Local Abbreviation clean := (clean_transactions astype_str to_numeric to_datetime).
Local Abbreviation main :=
  (Main.main astype_str to_numeric to_datetime str_num getenv path_exists joblib_load
     transform predict read_csv to_csv send_email_gmail).

(** Lines 166-178: the table [main] scores. *)
Local Abbreviation scored_table args w :=
  ('(scaler, kmeans) ← load_models path_exists joblib_load "rfm_scaler.pkl" "rfm_kmeans.pkl" w;
   raw ← read_csv (Main.input args) w;
   tx ← propagate (clean raw);
   '(features, snapshot_date) ← propagate (Cli.main_aggregate tx);
   propagate (score_segments Scaled (transform scaler) (predict kmeans) features)).

Lemma scored_table_Done args w scored :
  scored_table args w = Done scored ->
  exists scaler kmeans raw tx snapshot_date,
    load_models path_exists joblib_load "rfm_scaler.pkl" "rfm_kmeans.pkl" w
    = Done (scaler, kmeans)
    /\ read_csv (Main.input args) w = Done raw
    /\ clean raw = Ok tx
    /\ tx <> []
    /\ Cli.derive_customer_features tx = Ok (map Scored.features scored, snapshot_date)
    /\ score_segments Scaled (transform scaler) (predict kmeans) (map Scored.features scored)
       = Ok scored.
Proof.
  destruct (load_models _ _ _ _ w) as [[scaler kmeans]|f] eqn:Hload;
    cbn [mbind Outcome_bind]; [|done].
  destruct (read_csv _ w) as [raw|f] eqn:Hread; cbn [mbind Outcome_bind]; [|done].
  destruct (clean raw) as [tx|e] eqn:Hclean; cbn [mbind Outcome_bind propagate]; [|done].
  unfold Cli.main_aggregate. case_bool_decide as Hempty; cbn [mbind Outcome_bind propagate];
    [done|].
  destruct (Cli.derive_customer_features tx) as [[features snapshot_date]|e] eqn:Hderive;
    cbn [mbind Outcome_bind propagate]; [|done].
  destruct (score_segments _ _ _ features) as [out|e] eqn:Hscore;
    cbn [mbind Outcome_bind propagate]; [|done].
  intros [= <-]. exists scaler, kmeans, raw, tx, snapshot_date.
  rewrite (score_segments_features _ _ _ _ Hscore). auto 10.
Qed.

Lemma truthy_env (v : option string) :
  Py.truthy (from_option CStr CNone v) = true <-> exists s, v = Some s /\ s <> "".
Proof.
  destruct v as [s|]; simpl.
  - rewrite negb_true_iff. split.
    + intros Hs%String.eqb_neq. by exists s.
    + intros (s' & [= <-] & Hs). by apply String.eqb_neq.
  - split; [done|by intros (s & ? & _)].
Qed.

(** The rows the loop of [main] walks never make the guard or the
    composer raise. *)
Lemma main_rows_safe args w scored r :
  scored_table args w = Done scored ->
  r ∈ map Main.row_of_scored scored ->
  (exists a, Cli.recipient str_num (MailRow.Email r) = Ok a)
  /\ exists subject body,
       Cli.generate_email str_num (MailRow.Name r) (MailRow.Segment r)
         (MailRow.Last_Purchase_Days_Ago r) (MailRow.Fav_Category r) = Ok (subject, body).
Proof.
  intros (scaler & kmeans & raw & tx & snap & _ & _ & Hclean & _ & Hderive & _)%scored_table_Done.
  change map with (@fmap list _). intros (s & -> & Hs)%list_elem_of_fmap.
  split; [by eexists|].
  assert (Hcl : Forall cleaned tx).
  { eapply Forall_impl; [exact (clean_Ok_cleaned _ _ _ _ _ Hclean)|]. by intros t [? _]. }
  pose proof (cli_features_days_known tx _ _ Hcl Hderive) as Hdays.
  rewrite Forall_forall in Hdays.
  destruct (Hdays (Scored.features s)) as [n Hn].
  { change map with (@fmap list _). by apply list_elem_of_fmap_2. }
  unfold Main.row_of_scored. cbn [MailRow.Name MailRow.Segment MailRow.Last_Purchase_Days_Ago MailRow.Fav_Category].
  rewrite Hn. apply cli_generate_email_number.
Qed.

Lemma main_mailing args w d :
  Main.mailing (main args w) = Some d ->
  Main.dry_run args = false
  /\ exists user pass scored w',
       getenv "EMAIL_USER" = Some user /\ user <> ""
       /\ getenv "EMAIL_PASS" = Some pass /\ pass <> ""
       /\ scored_table args w = Done scored
       /\ to_csv scored (Main.output args) w = (w', None)
       /\ d = Cli.send_emails str_num (fun m => send_email_gmail m (CStr user) (CStr pass))
                (Main.limit args) (map Main.row_of_scored scored) w'
       /\ main args w = {| Main.world := sink d; Main.saved := Some scored;
                          Main.mailing := Some d;
                          Main.raised := match exit d with
                                         | Raised e => Some (Uncaught e)
                                         | _ => None
                                         end |}.
Proof.
  unfold Main.main. cbv zeta.
  destruct (Main.dry_run args) eqn:Hdry.
  - simpl. destruct (scored_table args w) as [scored|f]; [|done].
    by destruct (to_csv scored _ w) as [w' [f|]].
  - simpl negb. rewrite andb_true_l.
    destruct (Py.truthy (from_option CStr CNone (getenv "EMAIL_USER"))) eqn:Huser; [|done].
    destruct (Py.truthy (from_option CStr CNone (getenv "EMAIL_PASS"))) eqn:Hpass; [|done].
    apply truthy_env in Huser as (user & Huser & Hu), Hpass as (pass & Hpass & Hp).
    simpl. destruct (scored_table args w) as [scored|f] eqn:Hscored; [|done].
    destruct (to_csv scored _ w) as [w' [f|]] eqn:Hcsv; [done|].
    simpl. intros [= <-]. split; [done|].
    exists user, pass, scored, w'. rewrite Huser, Hpass. simpl. auto 10.
Qed.


Lemma main_saved args w scored :
  Main.saved (main args w) = Some scored ->
  scored_table args w = Done scored
  /\ (Main.dry_run args = true
      \/ Py.truthy (from_option CStr CNone (getenv "EMAIL_USER")) = true
         /\ Py.truthy (from_option CStr CNone (getenv "EMAIL_PASS")) = true).
Proof.
  unfold Main.main. cbv zeta.
  destruct (Main.dry_run args) eqn:Hdry.
  - simpl. destruct (scored_table args w) as [out|f]; [|done].
    destruct (to_csv out _ w) as [w' [f|]]; intros [= <-]; auto.
  - simpl negb. rewrite andb_true_l.
    destruct (Py.truthy (from_option CStr CNone (getenv "EMAIL_USER"))); [|done].
    destruct (Py.truthy (from_option CStr CNone (getenv "EMAIL_PASS"))); [|done].
    simpl. destruct (scored_table args w) as [out|f]; [|done].
    destruct (to_csv out _ w) as [w' [f|]]; intros [= <-]; auto.
Qed.

(** X19.  [main] enters the mail loop only when it was not a dry run,
    both credentials are set to non-empty strings, and the scored table
    was written without an error; the loop then walks the rows of the
    table it wrote, in their order, starting from the world [to_csv]
    left. *)
Theorem main_mails_after_saving args w d :
  Main.mailing (main args w) = Some d ->
  Main.dry_run args = false
  /\ exists user pass scored w',
       getenv "EMAIL_USER" = Some user /\ user <> ""
       /\ getenv "EMAIL_PASS" = Some pass /\ pass <> ""
       /\ Main.saved (main args w) = Some scored
       /\ to_csv scored (Main.output args) w = (w', None)
       /\ d = Cli.send_emails str_num (fun m => send_email_gmail m (CStr user) (CStr pass))
                (Main.limit args) (map Main.row_of_scored scored) w'.
Proof.
  intros (Hdry & user & pass & scored & w' & Hu & Hu0 & Hp & Hp0 & _ & Hcsv & Hd & Hrun)%main_mailing.
  split; [done|]. exists user, pass, scored, w'. rewrite Hrun. auto 10.
Qed.

(** X20.  Once [main] has entered the mail loop it returns normally: no
    row of the table it scored makes the guard or the composer raise (the
    days value of every row is a number), so the loop ends by exhaustion
    or by [break], and under a cap of at least one no more deliveries
    than the cap return. *)
Theorem main_mail_loop_returns args w d :
  Main.mailing (main args w) = Some d ->
  Main.raised (main args w) = None
  /\ Main.world (main args w) = sink d
  /\ (exit d = Exhausted \/ exit d = Break)
  /\ (forall n, Main.limit args = Some n -> 1 <= n -> Z.of_nat (sent d) <= n).
Proof.
  intros (Hdry & user & pass & scored & w' & _ & _ & _ & _ & Hscored & _ & Hd & Hrun)%main_mailing.
  assert (Hexit : exit d = Exhausted \/ exit d = Break).
  { destruct (exit d) as [| |e] eqn:He; auto. exfalso.
    rewrite Hd in He. apply send_loop_raised in He as (r & Hr & Hraise).
    destruct (main_rows_safe args w scored r Hscored Hr) as [[a Ha] (subject & body & Hgen)].
    destruct Hraise; congruence. }
  rewrite Hrun. cbn [Main.raised Main.world]. split; [|split; [done|split; [done|]]].
  - by destruct Hexit as [-> | ->].
  - intros n Hn Hcap. rewrite Hd, Hn.
    destruct (dispatch_stops_at_cap (fun m => send_email_gmail m (CStr user) (CStr pass))
                (Cli.recipient str_num) (Cli.generate_email str_num) n Hcap
                (map Main.row_of_scored scored) w') as (k & _ & _ & _ & Hle & _).
    exact Hle.
Qed.

(** X21.  The table [main] hands to [to_csv] is the scored feature table
    of the cleaned input: the rows the aggregator returns for it, in
    their order, one per distinct customer id and at least one; and it is
    handed over only in a dry run or with both credentials set. *)
Theorem main_saved_table args w scored :
  Main.saved (main args w) = Some scored ->
  (exists raw tx snapshot_date,
     read_csv (Main.input args) w = Done raw
     /\ clean raw = Ok tx
     /\ tx <> []
     /\ Cli.derive_customer_features tx = Ok (map Scored.features scored, snapshot_date)
     /\ length scored = size (list_to_set (omap CustomerID tx) : gset Z)
     /\ scored <> [])
  /\ (Main.dry_run args = true
      \/ (exists user, getenv "EMAIL_USER" = Some user /\ user <> "")
         /\ (exists pass, getenv "EMAIL_PASS" = Some pass /\ pass <> "")).
Proof.
  intros [Hscored Hcred]%main_saved. split.
  - apply scored_table_Done in Hscored
      as (scaler & kmeans & raw & tx & snap & _ & Hread & Hclean & Hne & Hderive & _).
    exists raw, tx, snap. repeat split; try done.
    + rewrite <- (cli_features_length tx _ snap Hderive). by rewrite length_map.
    + intros ->. apply (cli_features_nonempty tx [] snap); [|done|done|done].
      eapply Forall_impl; [exact (clean_Ok_cleaned _ _ _ _ _ Hclean)|]. by intros t [? _].
  - destruct Hcred as [?|[Hu Hp]]; [by left|right].
    by apply truthy_env in Hu, Hp.
Qed.

End Main_facts.

(** X22.  In a dry run [main] never enters the mail loop, and what it
    does depends neither on the credentials nor on the mail server. *)
Theorem main_dry_run {W Model Scaled : Type}
    (astype_str : Cell -> string) (to_numeric : Cell -> option Q)
    (to_datetime : Cell -> option Z) (str_num : Q -> string)
    (getenv getenv' : string -> option string)
    (path_exists : string -> W -> bool) (joblib_load : string -> W -> Outcome Model)
    (transform : Model -> list (option Z * option nat * option Q) -> Result (list Scaled))
    (predict : Model -> list Scaled -> Result (list Z))
    (read_csv : string -> W -> Outcome DataFrame)
    (to_csv : list Scored.t -> string -> W -> W * option Failure)
    (send_email_gmail send_email_gmail' : Mail -> Cell -> Cell -> W -> W * bool)
    (args : Main.Args) (w : W) :
  Main.dry_run args = true ->
  Main.mailing (Main.main astype_str to_numeric to_datetime str_num getenv path_exists
                  joblib_load transform predict read_csv to_csv send_email_gmail args w) = None
  /\ Main.main astype_str to_numeric to_datetime str_num getenv path_exists
       joblib_load transform predict read_csv to_csv send_email_gmail args w
     = Main.main astype_str to_numeric to_datetime str_num getenv' path_exists
         joblib_load transform predict read_csv to_csv send_email_gmail' args w.
Proof.
  intros Hdry. split.
  - destruct (Main.mailing _) as [d|] eqn:Hd; [|done].
    apply main_mailing in Hd as [Hd _]. congruence.
  - unfold Main.main. rewrite Hdry. reflexivity.
Qed.

(** The sample run: both customers are scored and saved, and the one
    with an address is mailed. *)
Example main_sample :
  Sample.main Sample.send_all
  = {| Main.world :=
         [ {| to_email := "ann@x.org";
              subject := at_risk_subject "Mug";
              body := at_risk_body "Ann" 4 "Mug" |} ];
       Main.saved := Some Sample.scored_orders;
       Main.mailing :=
         Some (Cli.send_emails Sample.str_num Sample.outbox None
                 (map Main.row_of_scored Sample.scored_orders) []);
       Main.raised := None |}.
Proof. by vm_compute. Qed.

Lemma main_mails_after_saving_witness :
  Main.mailing (Sample.main Sample.send_all)
  = Some (Cli.send_emails Sample.str_num Sample.outbox None
            (map Main.row_of_scored Sample.scored_orders) [])
  /\ (Main.dry_run Sample.send_all = false
      /\ exists user pass scored w',
           Sample.getenv "EMAIL_USER" = Some user /\ user <> ""
           /\ Sample.getenv "EMAIL_PASS" = Some pass /\ pass <> ""
           /\ Main.saved (Sample.main Sample.send_all) = Some scored
           /\ ([], None) = (w', @None Failure)
           /\ Cli.send_emails Sample.str_num Sample.outbox None
                (map Main.row_of_scored Sample.scored_orders) []
              = Cli.send_emails Sample.str_num
                  (fun m => Sample.outbox m) (Main.limit Sample.send_all)
                  (map Main.row_of_scored scored) w').
Proof.
  split; [vm_compute; reflexivity|].
  apply (main_mails_after_saving Sample.astype_str Sample.to_numeric Sample.to_datetime
           Sample.str_num Sample.getenv (fun _ _ => true) (fun _ _ => Done tt)
           (fun _ => Sample.scaler_transform) (fun _ => Sample.kmeans_predict)
           (fun _ _ => Done Sample.orders) (fun _ _ w => (w, None))
           (fun m _ _ => Sample.outbox m) Sample.send_all []
           (Cli.send_emails Sample.str_num Sample.outbox None
              (map Main.row_of_scored Sample.scored_orders) [])).
  vm_compute; reflexivity.
Defined.

Lemma main_mail_loop_returns_witness :
  Main.mailing (Sample.main Sample.send_all)
  = Some (Cli.send_emails Sample.str_num Sample.outbox None
            (map Main.row_of_scored Sample.scored_orders) [])
  /\ (Main.raised (Sample.main Sample.send_all) = None
      /\ Main.world (Sample.main Sample.send_all)
         = sink (Cli.send_emails Sample.str_num Sample.outbox None
                   (map Main.row_of_scored Sample.scored_orders) [])
      /\ (exit (Cli.send_emails Sample.str_num Sample.outbox None
                  (map Main.row_of_scored Sample.scored_orders) []) = Exhausted
          \/ exit (Cli.send_emails Sample.str_num Sample.outbox None
                     (map Main.row_of_scored Sample.scored_orders) []) = Break)
      /\ (forall n, Main.limit Sample.send_all = Some n -> 1 <= n ->
          Z.of_nat (sent (Cli.send_emails Sample.str_num Sample.outbox None
                            (map Main.row_of_scored Sample.scored_orders) [])) <= n)).
Proof.
  split; [vm_compute; reflexivity|].
  apply (main_mail_loop_returns Sample.astype_str Sample.to_numeric Sample.to_datetime
           Sample.str_num Sample.getenv (fun _ _ => true) (fun _ _ => Done tt)
           (fun _ => Sample.scaler_transform) (fun _ => Sample.kmeans_predict)
           (fun _ _ => Done Sample.orders) (fun _ _ w => (w, None))
           (fun m _ _ => Sample.outbox m) Sample.send_all []
           (Cli.send_emails Sample.str_num Sample.outbox None
              (map Main.row_of_scored Sample.scored_orders) [])).
  vm_compute; reflexivity.
Defined.

Lemma main_saved_table_witness :
  Main.saved (Sample.main Sample.send_all) = Some Sample.scored_orders
  /\ ((exists raw tx snapshot_date,
         Done Sample.orders = Done raw
         /\ Sample.clean raw = Ok tx
         /\ tx <> []
         /\ Cli.derive_customer_features tx
            = Ok (map Scored.features Sample.scored_orders, snapshot_date)
         /\ length Sample.scored_orders = size (list_to_set (omap CustomerID tx) : gset Z)
         /\ Sample.scored_orders <> [])
      /\ (Main.dry_run Sample.send_all = true
          \/ (exists user, Sample.getenv "EMAIL_USER" = Some user /\ user <> "")
             /\ (exists pass, Sample.getenv "EMAIL_PASS" = Some pass /\ pass <> ""))).
Proof.
  split; [vm_compute; reflexivity|].
  apply (main_saved_table Sample.astype_str Sample.to_numeric Sample.to_datetime
           Sample.str_num Sample.getenv (fun _ _ => true) (fun _ _ => Done tt)
           (fun _ => Sample.scaler_transform) (fun _ => Sample.kmeans_predict)
           (fun _ _ => Done Sample.orders) (fun _ _ w => (w, None))
           (fun m _ _ => Sample.outbox m) Sample.send_all [] Sample.scored_orders).
  vm_compute; reflexivity.
Defined.

Lemma main_dry_run_witness :
  Main.dry_run Sample.rehearsal = true
  /\ (Main.mailing (Sample.main Sample.rehearsal) = None
      /\ Sample.main Sample.rehearsal
         = Main.main Sample.astype_str Sample.to_numeric Sample.to_datetime Sample.str_num
             (fun _ => None) (fun _ _ => true) (fun _ _ => Done tt)
             (fun _ => Sample.scaler_transform) (fun _ => Sample.kmeans_predict)
             (fun _ _ => Done Sample.orders) (fun _ _ w => (w, None))
             (fun m _ _ => Sample.bouncing "ann@x.org" m) Sample.rehearsal []).
Proof.
  split; [reflexivity|].
  apply (main_dry_run Sample.astype_str Sample.to_numeric Sample.to_datetime
           Sample.str_num Sample.getenv (fun _ => None) (fun _ _ => true) (fun _ _ => Done tt)
           (fun _ => Sample.scaler_transform) (fun _ => Sample.kmeans_predict)
           (fun _ _ => Done Sample.orders) (fun _ _ w => (w, None))
           (fun m _ _ => Sample.outbox m) (fun m _ _ => Sample.bouncing "ann@x.org" m)
           Sample.rehearsal []).
  reflexivity.
Defined.
